(** * TalentUp: the company-profile page and the authentication context

    A shallow embedding of [src/pages/CompanyProfile.tsx] and of the
    authentication context ([AuthProvider], [useAuth]) that the page uses.

    The hosted backend (database, storage, authentication) is outside the
    repository: it appears here as an environment [Env] that answers every
    request, possibly depending on everything that happened before.  An
    asynchronous function of the source becomes a computation in the monad
    [Async], which threads the React state of the component and the
    observable [World] (requests sent, toasts shown, console output, pending
    timers) and which may end with a thrown value. *)

From Stdlib Require Import String Ascii List Bool Arith NArith Lia DecimalString.
From ExtLib Require Import Structures.Monad Structures.MonadExc Structures.MonadState.
Import ListNotations.
Import MonadNotation.
Local Open Scope string_scope.
Local Open Scope list_scope.
Local Open Scope monad_scope.

Set Implicit Arguments.

(** ** JavaScript values

    A character of a model string stands for one UTF-16 code unit, so that
    [String.length] is the [.length] of the source. *)

Module Js.

(** A property that may be missing ([undefined]), [null], or hold a value. *)
Inductive maybe (A : Type) : Type :=
| Undefined : maybe A
| Null : maybe A
| Val : A -> maybe A.
Arguments Undefined {A}.
Arguments Null {A}.

(** [x | null] of the type declarations is [option x]: [None] is [null]. *)
Definition of_nullable {A} (v : option A) : maybe A :=
  match v with
  | Some a => Val a
  | None => Null
  end.

(** [obj?.field] where [field : x | null]. *)
Definition opt_chain {O A} (obj : option O) (field : O -> option A) : maybe A :=
  match obj with
  | Some o => of_nullable (field o)
  | None => Undefined
  end.

(** Truthiness of a string: every string but the empty one. *)
Definition truthy (s : string) : bool :=
  match s with
  | EmptyString => false
  | String _ _ => true
  end.

(** [s || d] for strings. *)
Definition or_else (s d : string) : string :=
  if truthy s then s else d.

(** [v || null] where [v : string | undefined]. *)
Definition or_null (v : option string) : option string :=
  match v with
  | Some s => if truthy s then Some s else None
  | None => None
  end.

(** [v || ''] where [v : string | null]. *)
Definition or_empty (v : option string) : string :=
  match v with
  | Some s => or_else s ""
  | None => ""
  end.

(** [s.split(sep)] for a one-character separator: the pieces between the
    occurrences of [sep], always at least one. *)
Fixpoint split (sep : ascii) (s : string) : list string :=
  match s with
  | EmptyString => [EmptyString]
  | String c rest =>
      if Ascii.eqb c sep then EmptyString :: split sep rest
      else match split sep rest with
           | piece :: pieces => String c piece :: pieces
           | [] => [String c EmptyString]
           end
  end.

(** [arr.pop()]: the last element, [undefined] on an empty array. *)
Fixpoint pop (l : list string) : option string :=
  match l with
  | [] => None
  | [x] => Some x
  | _ :: rest => pop rest
  end.

(** A value interpolated in a template literal. *)
Definition template (v : option string) : string :=
  match v with
  | Some s => s
  | None => "undefined"
  end.

(** A number interpolated in a template literal: its decimal digits. *)
Definition number_to_string (n : N) : string :=
  NilEmpty.string_of_uint (N.to_uint n).

(** [s.includes(needle)]. *)
Fixpoint includes (needle s : string) : bool :=
  if String.prefix needle s then true
  else match s with
       | EmptyString => false
       | String _ rest => includes needle rest
       end.

(** Error objects.  The code only ever reads [message]; [detail] stands for
    whatever else the object carries (code, status, hint). *)
Record Error : Type := { message : string; detail : string }.

(** [new Error(msg)]. *)
Definition new_Error (msg : string) : Error :=
  {| message := msg; detail := "" |}.

(** How the evaluation of a function body ends. *)
Inductive Outcome (A : Type) : Type :=
| Returned : A -> Outcome A
| Thrown : Error -> Outcome A.
Arguments Thrown {A}.

End Js.

(** ** Form validation (zod) *)

Module Zod.

Record Issue : Type := { path : string; message : string }.

(** A schema for values of type [A] lists what is wrong with a value. *)
Definition Schema (A : Type) : Type := A -> list string.

Definition string_ : Schema string := fun _ => [].

(** [z.string().min(n, msg)]. *)
Definition string_min (n : nat) (msg : string) : Schema string :=
  fun s => if Nat.ltb (String.length s) n then [msg] else [].

(** [z.string().email(msg)], relative to the library's test for the format
    of an email address. *)
Definition string_email (isEmail : string -> bool) (msg : string) : Schema string :=
  fun s => if isEmail s then [] else [msg].

(** [schema.optional()]: [undefined] passes. *)
Definition optional {A} (schema : Schema A) : Schema (option A) :=
  fun v => match v with
           | None => []
           | Some a => schema a
           end.

(** [z.literal(lit)] on a value that may be [undefined]. *)
Definition literal (lit : string) : Schema (option string) :=
  fun v => match v with
           | Some s => if String.eqb s lit then [] else ["Invalid literal value"]
           | None => ["Invalid literal value"]
           end.

(** [a.or(b)]: the value passes when it passes one of the two. *)
Definition or {A} (a b : Schema A) : Schema A :=
  fun v => match a v with
           | [] => []
           | _ :: _ => match b v with
                       | [] => []
                       | _ :: _ => ["Invalid input"]
                       end
           end.

(** The issues of one key of a [z.object]. *)
Definition at_key {A} (key : string) (schema : Schema A) (v : A) : list Issue :=
  map (fun msg => {| path := key; message := msg |}) (schema v).

End Zod.

(** ** The two tables *)

(** A row of [companies], as the interface [CompanyProfile] of the page
    declares it. *)
Module Companies.

Record CompanyProfile : Type := {
  id : string;
  name : option string;
  contact_email : option string;
  description : option string;
  sector : option string;
  logo_url : option string
}.

End Companies.

(** A row of [profiles], as the interface [Profile] of the authentication
    context declares it.  The declared type of [role] is
    ['developer' | 'company']; what is stored is the string that came. *)
Module Profiles.

Record Profile : Type := {
  id : string;
  user_id : string;
  role : string;
  created_at : string;
  updated_at : string
}.

End Profiles.

(** ** The backend client and what the page can observe *)

Module Supabase.

(** [user.user_metadata]: the object given as [options.data] at sign-up,
    here with string-valued properties. *)
Definition Metadata : Type := list (string * string).

Record User : Type := {
  id : string;
  user_metadata : option Metadata
}.

Record Session : Type := {
  access_token : string;
  user : option User
}.

(** [metadata?.key]: [undefined] when the object or the property is missing. *)
Definition get_property (metadata : option Metadata) (key : string) : option string :=
  match metadata with
  | Some props =>
      match find (fun kv => String.eqb (fst kv) key) props with
      | Some kv => Some (snd kv)
      | None => None
      end
  | None => None
  end.

(** The [{ data, error }] object in which the client answers. *)
Record Reply (D : Type) : Type := {
  data : D;
  error : option Js.Error
}.

(** The object given to [.update(...)] on [companies]. *)
Record CompanyUpdate : Type := {
  set_user_id : string;
  set_name : Js.maybe string;
  set_contact_email : Js.maybe string;
  set_description : Js.maybe string;
  set_sector : Js.maybe string;
  set_logo_url : Js.maybe string
}.

Record File : Type := {
  file_name : string;
  file_content : string
}.

Record SignUpData : Type := {
  signed_up_user : option User;
  signed_up_session : option Session
}.

(** The requests that the code sends through the client. *)
Inductive Call : Type :=
| CompaniesSelectByUser (user_id : string)
| CompaniesUpdateByUser (payload : CompanyUpdate) (user_id : string)
| ProfilesSelectByUser (user_id : string)
| StorageUpload (bucket path : string) (file : File)
| StorageGetPublicUrl (bucket path : string)
| AuthSignUp (email password emailRedirectTo name role : string)
| AuthSignInWithPassword (email password : string)
| AuthSignOut
| AuthResend (email emailRedirectTo : string)
| AuthGetSession.

End Supabase.

Module Ui.

Inductive Variant : Type := Default | Destructive.

(** The button of the toast of [signUp]: a click resends the confirmation
    to [resend_to]. *)
Record ToastAction : Type := {
  altText : string;
  resend_to : string
}.

Record Toast : Type := {
  title : string;
  description : string;
  variant : option Variant;
  action : option ToastAction
}.

End Ui.

(** ** Effects *)

Inductive Event : Type :=
| Called (c : Supabase.Call)
| Toasted (t : Ui.Toast)
| ConsoleLog (label : string)
| ConsoleError (label : string) (e : Js.Error).

(** A callback handed to [setTimeout]. *)
Inductive Task : Type :=
| FetchProfileTask (userId : string).

Record World : Type := {
  trace : list Event;
  timers : list Task
}.

(** The environment: the answers of the backend, the clock and the address
    of the page.  An answer may depend on all that happened so far, and an
    awaited request may be rejected instead of answered. *)
Record Env : Type := {
  companies_select :
    list Event -> string -> Js.Outcome (Supabase.Reply (option Companies.CompanyProfile));
  companies_update :
    list Event -> Supabase.CompanyUpdate -> string -> Js.Outcome (Supabase.Reply unit);
  profiles_select :
    list Event -> string -> Js.Outcome (Supabase.Reply (option Profiles.Profile));
  storage_upload :
    list Event -> string -> string -> Supabase.File -> Js.Outcome (Supabase.Reply unit);
  storage_getPublicUrl : string -> string -> string;
  auth_signUp :
    list Event -> string -> string -> string -> string -> string ->
    Js.Outcome (Supabase.Reply Supabase.SignUpData);
  auth_signInWithPassword :
    list Event -> string -> string -> Js.Outcome (Supabase.Reply unit);
  auth_signOut : list Event -> Js.Outcome (Supabase.Reply unit);
  auth_resend : list Event -> string -> string -> Js.Outcome (Supabase.Reply unit);
  auth_getSession : list Event -> Js.Outcome (Supabase.Reply (option Supabase.Session));
  Date_now : list Event -> N;
  window_location_origin : string
}.

(** A computation over the component state [St]. *)
Definition Async (St A : Type) : Type :=
  St -> World -> Js.Outcome A * St * World.

#[global] Instance Monad_Async {St} : Monad (Async St) := {|
  ret := fun A (a : A) st w => (Js.Returned a, st, w);
  bind := fun A B (m : Async St A) (k : A -> Async St B) st w =>
    match m st w with
    | (Js.Returned a, st', w') => k a st' w'
    | (Js.Thrown e, st', w') => (Js.Thrown e, st', w')
    end
|}.

(** [throw] and [try { ... } catch (e) { ... }]. *)
#[global] Instance Exc_Async {St} : MonadExc Js.Error (Async St) := {|
  raise := fun A (e : Js.Error) st w => (Js.Thrown e, st, w);
  catch := fun A (body : Async St A) (handler : Js.Error -> Async St A) st w =>
    match body st w with
    | (Js.Returned a, st', w') => (Js.Returned a, st', w')
    | (Js.Thrown e, st', w') => handler e st' w'
    end
|}.

#[global] Instance State_Async {St} : MonadState St (Async St) := {|
  get := fun st w => (Js.Returned st, st, w);
  put := fun st' _ w => (Js.Returned tt, st', w)
|}.

(** [try { body } finally { cleanup }]. *)
Definition finally {St A} (body : Async St A) (cleanup : Async St unit) : Async St A :=
  fun st w =>
    match body st w with
    | (result, st', w') =>
        match cleanup st' w' with
        | (Js.Returned _, st'', w'') => (result, st'', w'')
        | (Js.Thrown e, st'', w'') => (Js.Thrown e, st'', w'')
        end
    end.

(** A call whose promise is not awaited: the caller goes on whatever the
    outcome. *)
Definition not_awaited {St A} (m : Async St A) : Async St unit :=
  fun st w =>
    match m st w with
    | (_, st', w') => (Js.Returned tt, st', w')
    end.

Definition emit {St} (e : Event) : Async St unit :=
  fun st w => (Js.Returned tt, st, {| trace := trace w ++ [e]; timers := timers w |}).

(** A request: it is recorded, and answered from what happened before it. *)
Definition request {St R} (c : Supabase.Call) (answer : list Event -> Js.Outcome R)
  : Async St R :=
  fun st w => (answer (trace w), st, {| trace := trace w ++ [Called c]; timers := timers w |}).

Definition toast {St} (t : Ui.Toast) : Async St unit := emit (Toasted t).

Definition console_log {St} (label : string) : Async St unit := emit (ConsoleLog label).

Definition console_error {St} (label : string) (e : Js.Error) : Async St unit :=
  emit (ConsoleError label e).

(** [setTimeout(task, 0)]: the task waits; nothing of it runs now. *)
Definition setTimeout {St} (task : Task) : Async St unit :=
  fun st w => (Js.Returned tt, st, {| trace := trace w; timers := timers w ++ [task] |}).

(** [Date.now()]. *)
Definition now {St} (env : Env) : Async St N :=
  fun st w => (Js.Returned (Date_now env (trace w)), st, w).

(** [if (error) throw error]. *)
Definition throw_if_error {St} (error : option Js.Error) : Async St unit :=
  match error with
  | Some e => raise e
  | None => ret tt
  end.

(** The toasts, requests and console errors of a trace, in order. *)
Definition toasts (tr : list Event) : list Ui.Toast :=
  flat_map (fun e => match e with Toasted t => [t] | _ => [] end) tr.

Definition calls (tr : list Event) : list Supabase.Call :=
  flat_map (fun e => match e with Called c => [c] | _ => [] end) tr.

Definition console_errors (tr : list Event) : list Js.Error :=
  flat_map (fun e => match e with ConsoleError _ err => [err] | _ => [] end) tr.

(** [setState(f)]. *)
Definition update {St} (f : St -> St) : Async St unit :=
  fun st w => (Js.Returned tt, f st, w).

(** The three parts of the result of a run. *)
Definition outcome {St A} (r : Js.Outcome A * St * World) : Js.Outcome A := fst (fst r).

Definition state {St A} (r : Js.Outcome A * St * World) : St := snd (fst r).

Definition world {St A} (r : Js.Outcome A * St * World) : World := snd r.

(** A world in which [events] have been added to the trace of [w]. *)
Definition after (w : World) (events : list Event) : World :=
  {| trace := trace w ++ events; timers := timers w |}.

(** ** The company-profile page *)

Module CompanyProfile.

Record CompanyProfileFormData : Type := {
  name : string;
  contact_email : string;
  description : option string;
  sector : option string
}.

Section Schema.

(** The format test behind [z.string().email()] belongs to the zod package. *)
Variable isEmail : string -> bool.

Definition companyProfileSchema (v : CompanyProfileFormData) : list Zod.Issue :=
  Zod.at_key "name"
    (Zod.string_min 2 "El nombre debe tener al menos 2 caracteres") (name v)
  ++ Zod.at_key "contact_email"
    (Zod.string_email isEmail "Email inválido") (contact_email v)
  ++ Zod.at_key "description"
    (Zod.or (Zod.optional Zod.string_) (Zod.literal "")) (description v)
  ++ Zod.at_key "sector"
    (Zod.or (Zod.optional Zod.string_) (Zod.literal "")) (sector v).

(** [companyProfileSchema.safeParse(v)]: the value itself when nothing is
    wrong with it, the issues otherwise. *)
Definition safeParse (v : CompanyProfileFormData)
  : list Zod.Issue + CompanyProfileFormData :=
  match companyProfileSchema v with
  | [] => inr v
  | issue :: issues => inl (issue :: issues)
  end.

Definition accepts (v : CompanyProfileFormData) : bool :=
  match safeParse v with
  | inr _ => true
  | inl _ => false
  end.

End Schema.

(** The state of the component: its three [useState] cells and the values
    and errors that [useForm] keeps. *)
Record State : Type := {
  loading : bool;
  profile : option Companies.CompanyProfile;
  uploading : bool;
  values : CompanyProfileFormData;
  errors : list Zod.Issue
}.

Definition defaultValues : CompanyProfileFormData :=
  {| name := ""; contact_email := ""; description := Some ""; sector := Some "" |}.

Definition initial : State :=
  {| loading := false; profile := None; uploading := false;
     values := defaultValues; errors := [] |}.

Definition setLoading (b : bool) : Async State unit :=
  update (fun st => {| loading := b; profile := profile st; uploading := uploading st;
                       values := values st; errors := errors st |}).

Definition setUploading (b : bool) : Async State unit :=
  update (fun st => {| loading := loading st; profile := profile st; uploading := b;
                       values := values st; errors := errors st |}).

(** [setProfile(f)], the functional form; [setProfile(p)] is [setProfile (fun _ => p)]. *)
Definition setProfile (f : option Companies.CompanyProfile -> option Companies.CompanyProfile)
  : Async State unit :=
  update (fun st => {| loading := loading st; profile := f (profile st);
                       uploading := uploading st; values := values st;
                       errors := errors st |}).

Definition setValues (f : CompanyProfileFormData -> CompanyProfileFormData)
  : Async State unit :=
  update (fun st => {| loading := loading st; profile := profile st;
                       uploading := uploading st; values := f (values st);
                       errors := errors st |}).

Definition setErrors (issues : list Zod.Issue) : Async State unit :=
  update (fun st => {| loading := loading st; profile := profile st;
                       uploading := uploading st; values := values st;
                       errors := issues |}).

(** [setValue('name', s)] and its three siblings. *)
Definition setValue_name (s : string) : Async State unit :=
  setValues (fun v => {| name := s; contact_email := contact_email v;
                         description := description v; sector := sector v |}).

Definition setValue_contact_email (s : string) : Async State unit :=
  setValues (fun v => {| name := name v; contact_email := s;
                         description := description v; sector := sector v |}).

Definition setValue_description (s : string) : Async State unit :=
  setValues (fun v => {| name := name v; contact_email := contact_email v;
                         description := Some s; sector := sector v |}).

Definition setValue_sector (s : string) : Async State unit :=
  setValues (fun v => {| name := name v; contact_email := contact_email v;
                         description := description v; sector := Some s |}).

(** [{ ...prev, logo_url: logoUrl }]. *)
Definition with_logo_url (logoUrl : string) (prev : Companies.CompanyProfile)
  : Companies.CompanyProfile :=
  {| Companies.id := Companies.id prev;
     Companies.name := Companies.name prev;
     Companies.contact_email := Companies.contact_email prev;
     Companies.description := Companies.description prev;
     Companies.sector := Companies.sector prev;
     Companies.logo_url := Some logoUrl |}.

Definition destructive (title description : string) : Ui.Toast :=
  {| Ui.title := title; Ui.description := description;
     Ui.variant := Some Ui.Destructive; Ui.action := None |}.

Definition plain (title description : string) : Ui.Toast :=
  {| Ui.title := title; Ui.description := description;
     Ui.variant := None; Ui.action := None |}.

(** The functions of the component close over the [user] and the [profile]
    of the render that created them; the setters act on the live state. *)
Section Render.

Variable env : Env.
Variable user : option Supabase.User.
Variable closed_profile : option Companies.CompanyProfile.

Definition loadProfile : Async State unit :=
  match user with
  | None => ret tt
  | Some u =>
      catch
        (reply <- request (Supabase.CompaniesSelectByUser (Supabase.id u))
                    (fun tr => companies_select env tr (Supabase.id u)) ;;
         throw_if_error (Supabase.error reply) ;;
         match Supabase.data reply with
         | Some data =>
             setProfile (fun _ => Some data) ;;
             setValue_name (Js.or_empty (Companies.name data)) ;;
             setValue_contact_email (Js.or_empty (Companies.contact_email data)) ;;
             setValue_description (Js.or_empty (Companies.description data)) ;;
             setValue_sector (Js.or_empty (Companies.sector data))
         | None => ret tt
         end)
        (fun _ => toast (destructive "Error" "No se pudo cargar el perfil"))
  end.

(** The path under which [uploadFile] stores a file. *)
Definition fileExt (file : Supabase.File) : option string :=
  Js.pop (Js.split "." (Supabase.file_name file)).

Definition fileName (u : Supabase.User) (timestamp : N) (file : Supabase.File) : string :=
  Supabase.id u ++ "/" ++ Js.number_to_string timestamp ++ "." ++ Js.template (fileExt file).

Definition filePath (u : Supabase.User) (timestamp : N) (file : Supabase.File) : string :=
  Supabase.id u ++ "/" ++ fileName u timestamp file.

Definition uploadFile (file : Supabase.File) (bucket : string) : Async State string :=
  match user with
  | None => raise (Js.new_Error "No user found")
  | Some u =>
      timestamp <- now env ;;
      let path := filePath u timestamp file in
      reply <- request (Supabase.StorageUpload bucket path file)
                 (fun tr => storage_upload env tr bucket path file) ;;
      throw_if_error (Supabase.error reply) ;;
      request (Supabase.StorageGetPublicUrl bucket path)
        (fun _ => Js.Returned (storage_getPublicUrl env bucket path))
  end.

(** The object that [handleLogoChange] gives to [.update]. *)
Definition logoData (u : Supabase.User) (logoUrl : string) : Supabase.CompanyUpdate :=
  {| Supabase.set_user_id := Supabase.id u;
     Supabase.set_logo_url := Js.Val logoUrl;
     Supabase.set_name := Js.opt_chain closed_profile Companies.name;
     Supabase.set_contact_email := Js.opt_chain closed_profile Companies.contact_email;
     Supabase.set_description := Js.opt_chain closed_profile Companies.description;
     Supabase.set_sector := Js.opt_chain closed_profile Companies.sector |}.

Definition handleLogoChange (file : Supabase.File) : Async State unit :=
  match user with
  | None => ret tt
  | Some u =>
      setUploading true ;;
      finally
        (catch
           (logoUrl <- uploadFile file "logos" ;;
            reply <- request (Supabase.CompaniesUpdateByUser (logoData u logoUrl) (Supabase.id u))
                       (fun tr => companies_update env tr (logoData u logoUrl) (Supabase.id u)) ;;
            throw_if_error (Supabase.error reply) ;;
            setProfile (option_map (with_logo_url logoUrl)) ;;
            toast (plain "Logo actualizado" "Tu logo se ha guardado correctamente"))
           (fun error =>
              toast (destructive "Error"
                       (Js.or_else (Js.message error) "No se pudo subir el logo"))))
        (setUploading false)
  end.

(** The object that [onSubmit] gives to [.update]. *)
Definition profileData (u : Supabase.User) (data : CompanyProfileFormData)
  : Supabase.CompanyUpdate :=
  {| Supabase.set_user_id := Supabase.id u;
     Supabase.set_name := Js.Val (name data);
     Supabase.set_contact_email := Js.Val (contact_email data);
     Supabase.set_description := Js.of_nullable (Js.or_null (description data));
     Supabase.set_sector := Js.of_nullable (Js.or_null (sector data));
     Supabase.set_logo_url := Js.opt_chain closed_profile Companies.logo_url |}.

(** [loadProfile()] at the end of the [try] block is not awaited.  What it
    does after its request is answered touches the profile and the form
    values only, and so commutes with the [setLoading(false)] of [finally];
    it is run here at the place of the call. *)
Definition onSubmit (data : CompanyProfileFormData) : Async State unit :=
  match user with
  | None => ret tt
  | Some u =>
      setLoading true ;;
      finally
        (catch
           (reply <- request (Supabase.CompaniesUpdateByUser (profileData u data) (Supabase.id u))
                       (fun tr => companies_update env tr (profileData u data) (Supabase.id u)) ;;
            throw_if_error (Supabase.error reply) ;;
            toast (plain "Perfil actualizado" "Tu perfil se ha guardado correctamente") ;;
            not_awaited loadProfile)
           (fun error =>
              toast (destructive "Error"
                       (Js.or_else (Js.message error) "No se pudo guardar el perfil"))))
        (setLoading false)
  end.

(** [handleSubmit(onSubmit)] of react-hook-form with the zod resolver: the
    values of the form are validated, and [onSubmit] is called with them
    only when the schema accepts them. *)
Definition handleSubmit (isEmail : string -> bool) : Async State unit :=
  st <- get ;;
  match safeParse isEmail (values st) with
  | inr data => setErrors [] ;; onSubmit data
  | inl issues => setErrors issues
  end.

(** [useEffect(() => { if (user) loadProfile() }, [user])]. *)
Definition useEffect_user : Async State unit :=
  match user with
  | Some _ => not_awaited loadProfile
  | None => ret tt
  end.

(** The [onChange] of the file input. *)
Definition onChange_logo (files : option (list Supabase.File)) : Async State unit :=
  match files with
  | Some (file :: _) => not_awaited (handleLogoChange file)
  | _ => ret tt
  end.

End Render.

(** What the page shows of its state. *)

(** [errors.field?.message]: the resolver keeps, for a field, the first
    issue on its path. *)
Definition errorMessage (field : string) (issues : list Zod.Issue) : option string :=
  match find (fun issue => String.eqb (Zod.path issue) field) issues with
  | Some issue => Some (Zod.message issue)
  | None => None
  end.

(** [profile?.logo_url || '']. *)
Definition logoSrc (st : State) : string :=
  match profile st with
  | Some p => Js.or_empty (Companies.logo_url p)
  | None => ""
  end.

(** Whether [profile?.logo_url] is truthy. *)
Definition has_logo (st : State) : bool :=
  match profile st with
  | Some p =>
      match Companies.logo_url p with
      | Some url => Js.truthy url
      | None => false
      end
  | None => false
  end.

(** The label of the upload control. *)
Definition uploadLabel (st : State) : string :=
  if uploading st then "Subiendo..."
  else if has_logo st then "Cambiar Logo" else "Añadir Logo".

(** [disabled={uploading}] on the file input. *)
Definition fileInputDisabled (st : State) : bool := uploading st.

(** [disabled={loading || uploading}] on the submit button. *)
Definition submitDisabled (st : State) : bool := loading st || uploading st.

Definition submitLabel (st : State) : string :=
  if loading st then "Guardando..." else "Guardar Perfil".

End CompanyProfile.

(** ** The authentication context *)

Module AuthContext.

(** The two categories of the declared type ['developer' | 'company']. *)
Inductive Role : Type := developer | company.

Definition role_name (r : Role) : string :=
  match r with
  | developer => "developer"
  | company => "company"
  end.

(** The four [useState] cells of [AuthProvider]. *)
Record State : Type := {
  user : option Supabase.User;
  session : option Supabase.Session;
  profile : option Profiles.Profile;
  loading : bool
}.

Definition initial : State :=
  {| user := None; session := None; profile := None; loading := true |}.

Definition setUser (u : option Supabase.User) : Async State unit :=
  update (fun st => {| user := u; session := session st;
                       profile := profile st; loading := loading st |}).

Definition setSession (s : option Supabase.Session) : Async State unit :=
  update (fun st => {| user := user st; session := s;
                       profile := profile st; loading := loading st |}).

Definition setProfile (p : option Profiles.Profile) : Async State unit :=
  update (fun st => {| user := user st; session := session st;
                       profile := p; loading := loading st |}).

Definition setLoading (b : bool) : Async State unit :=
  update (fun st => {| user := user st; session := session st;
                       profile := profile st; loading := b |}).

(** What [signUp], [signIn] and [resendConfirmation] resolve to. *)
Record ErrorResult : Type := { error : option Js.Error }.

Definition destructive (title description : string) : Ui.Toast :=
  {| Ui.title := title; Ui.description := description;
     Ui.variant := Some Ui.Destructive; Ui.action := None |}.

Definition plain (title description : string) : Ui.Toast :=
  {| Ui.title := title; Ui.description := description;
     Ui.variant := None; Ui.action := None |}.

(** [session?.user]. *)
Definition session_user (s : option Supabase.Session) : option Supabase.User :=
  match s with
  | Some s' => Supabase.user s'
  | None => None
  end.

(** [session.user.user_metadata?.role]. *)
Definition metadata_role (u : Supabase.User) : option string :=
  Supabase.get_property (Supabase.user_metadata u) "role".

(** The profile shown while the row of [profiles] is on its way. *)
Definition tempProfile (u : Supabase.User) (userRole : string) : Profiles.Profile :=
  {| Profiles.id := "";
     Profiles.user_id := Supabase.id u;
     Profiles.role := userRole;
     Profiles.created_at := "";
     Profiles.updated_at := "" |}.

Section Provider.

Variable env : Env.

Definition fetchProfile (userId : string) : Async State unit :=
  catch
    (console_log "Fetching profile for user:" ;;
     reply <- request (Supabase.ProfilesSelectByUser userId)
                (fun tr => profiles_select env tr userId) ;;
     match Supabase.error reply with
     | Some e => console_error "Error fetching profile:" e
     | None =>
         console_log "Profile fetched from DB:" ;;
         setProfile (Supabase.data reply)
     end)
    (fun e => console_error "Error fetching profile:" e).

(** The listener given to [supabase.auth.onAuthStateChange]. *)
Definition onAuthStateChange (event : string) (s : option Supabase.Session)
  : Async State unit :=
  console_log "Auth state change:" ;;
  setSession s ;;
  setUser (session_user s) ;;
  match session_user s with
  | Some u =>
      console_log "User role from metadata:" ;;
      match metadata_role u with
      | Some userRole =>
          if Js.truthy userRole then
            console_log "Setting temporary profile:" ;;
            setProfile (Some (tempProfile u userRole))
          else ret tt
      | None => ret tt
      end ;;
      setTimeout (FetchProfileTask (Supabase.id u))
  | None => setProfile None
  end ;;
  setLoading false.

(** The callback given to [supabase.auth.getSession().then]. *)
Definition onGetSession (reply : Supabase.Reply (option Supabase.Session))
  : Async State unit :=
  let s := Supabase.data reply in
  setSession s ;;
  setUser (session_user s) ;;
  match session_user s with
  | Some u =>
      match metadata_role u with
      | Some userRole =>
          if Js.truthy userRole then setProfile (Some (tempProfile u userRole))
          else ret tt
      | None => ret tt
      end ;;
      setTimeout (FetchProfileTask (Supabase.id u))
  | None => ret tt
  end ;;
  setLoading false.

(** The initial session of the effect of [AuthProvider]. *)
Definition getInitialSession : Async State unit :=
  not_awaited
    (reply <- request Supabase.AuthGetSession (fun tr => auth_getSession env tr) ;;
     onGetSession reply).

(** A pending timer fires. *)
Definition run_task (task : Task) : Async State unit :=
  match task with
  | FetchProfileTask userId => not_awaited (fetchProfile userId)
  end.

Definition run_timer : Async State unit :=
  fun st w =>
    match timers w with
    | [] => (Js.Returned tt, st, w)
    | task :: rest => run_task task st {| trace := trace w; timers := rest |}
    end.

Definition resendConfirmation (email : string) : Async State ErrorResult :=
  let redirectUrl := (window_location_origin env ++ "/confirm")%string in
  reply <- request (Supabase.AuthResend email redirectUrl)
             (fun tr => auth_resend env tr email redirectUrl) ;;
  match Supabase.error reply with
  | Some e =>
      (if Js.includes "For security purposes" (Js.message e)
          || Js.includes "rate limit" (Js.message e)
       then toast {| Ui.title := "Espera un momento";
                     Ui.description := "Por seguridad, debes esperar antes de solicitar otro email. Es posible que ya se haya enviado uno.";
                     Ui.variant := Some Ui.Default;
                     Ui.action := None |}
       else toast (destructive "Error al reenviar" (Js.message e))) ;;
      ret {| error := Some e |}
  | None =>
      toast (plain "Email reenviado"
               "Se ha enviado un nuevo email de confirmación. Revisa tu bandeja de entrada.") ;;
      ret {| error := None |}
  end.

(** The toast of the branch of [signUp] for an address already in use. *)
Definition already_registered (email : string) : Ui.Toast :=
  {| Ui.title := "Email ya registrado";
     Ui.description := "Ese correo ya está en uso. Inicia sesión o confirma tu cuenta desde el email.";
     Ui.variant := Some Ui.Destructive;
     Ui.action := Some {| Ui.altText := "Reenviar email de confirmación";
                          Ui.resend_to := email |} |}.

(** A click on the button of a toast. *)
Definition onClick (a : Ui.ToastAction) : Async State unit :=
  not_awaited (resendConfirmation (Ui.resend_to a)).

Definition signUp (email password name : string) (role : Role)
  : Async State ErrorResult :=
  let redirectUrl := (window_location_origin env ++ "/confirm")%string in
  console_log "SignUp - Redirect URL set to:" ;;
  reply <- request (Supabase.AuthSignUp email password redirectUrl name (role_name role))
             (fun tr => auth_signUp env tr email password redirectUrl name (role_name role)) ;;
  console_log "👉 Resultado signUp:" ;;
  match Supabase.error reply with
  | Some e =>
      toast (destructive "Error en el registro" (Js.message e)) ;;
      ret {| error := Some e |}
  | None =>
      match Supabase.signed_up_user (Supabase.data reply),
            Supabase.signed_up_session (Supabase.data reply) with
      | Some _, None =>
          toast (already_registered email) ;;
          ret {| error := Some (Js.new_Error "Email ya registrado") |}
      | _, _ =>
          toast (plain "¡Registro exitoso!" "Revisa tu email para confirmar tu cuenta.") ;;
          ret {| error := None |}
      end
  end.

Definition signIn (email password : string) : Async State ErrorResult :=
  reply <- request (Supabase.AuthSignInWithPassword email password)
             (fun tr => auth_signInWithPassword env tr email password) ;;
  match Supabase.error reply with
  | Some e => toast (destructive "Error en el login" (Js.message e))
  | None => ret tt
  end ;;
  ret {| error := Supabase.error reply |}.

Definition signOut : Async State unit :=
  _ <- request Supabase.AuthSignOut (fun tr => auth_signOut env tr) ;;
  setUser None ;;
  setSession None ;;
  setProfile None.

End Provider.

(** The value that [AuthProvider] provides. *)
Module Value.

Record AuthContextType : Type := {
  user : option Supabase.User;
  session : option Supabase.Session;
  profile : option Profiles.Profile;
  loading : bool;
  signUp : string -> string -> string -> Role -> Async State ErrorResult;
  signIn : string -> string -> Async State ErrorResult;
  signOut : Async State unit;
  resendConfirmation : string -> Async State ErrorResult
}.

End Value.

Definition value (env : Env) (st : State) : Value.AuthContextType :=
  {| Value.user := user st;
     Value.session := session st;
     Value.profile := profile st;
     Value.loading := loading st;
     Value.signUp := signUp env;
     Value.signIn := signIn env;
     Value.signOut := signOut env;
     Value.resendConfirmation := resendConfirmation env |}.

(** [useContext(AuthContext)]: the value of the nearest enclosing provider,
    and the default of [createContext], [undefined], when there is none.
    [providers] lists the values of the enclosing providers, nearest first. *)
Definition useContext (providers : list Value.AuthContextType)
  : option Value.AuthContextType :=
  match providers with
  | nearest :: _ => Some nearest
  | [] => None
  end.

Definition useAuth (providers : list Value.AuthContextType)
  : Js.Outcome Value.AuthContextType :=
  match useContext providers with
  | None => Js.Thrown (Js.new_Error "useAuth must be used within an AuthProvider")
  | Some context => Js.Returned context
  end.

End AuthContext.

(** ** Concrete data, on which the definitions can be run *)

Module Sample.

(** A stand-in for the format test of the library: text, one [@], text. *)
Definition isEmail (s : string) : bool :=
  match Js.split "@" s with
  | [local; domain] => Js.truthy local && Js.truthy domain
  | _ => false
  end.

Definition ana : Supabase.User :=
  {| Supabase.id := "u1";
     Supabase.user_metadata := Some [("name", "Ana"); ("role", "company")] |}.

Definition ana_session : Supabase.Session :=
  {| Supabase.access_token := "token"; Supabase.user := Some ana |}.

Definition acme : Companies.CompanyProfile :=
  {| Companies.id := "c1";
     Companies.name := Some "Acme";
     Companies.contact_email := Some "hi@acme.io";
     Companies.description := None;
     Companies.sector := Some "Tech";
     Companies.logo_url := Some "https://cdn/old.png" |}.

Definition ana_profile : Profiles.Profile :=
  {| Profiles.id := "p1"; Profiles.user_id := "u1"; Profiles.role := "company";
     Profiles.created_at := "2024-01-01"; Profiles.updated_at := "2024-01-02" |}.

Definition logo : Supabase.File :=
  {| Supabase.file_name := "logo.v2.png"; Supabase.file_content := "bytes" |}.

Definition ok {D} (d : D) : Js.Outcome (Supabase.Reply D) :=
  Js.Returned {| Supabase.data := d; Supabase.error := None |}.

Definition failed {D} (d : D) (msg : string) : Js.Outcome (Supabase.Reply D) :=
  Js.Returned {| Supabase.data := d;
                 Supabase.error := Some {| Js.message := msg; Js.detail := "500" |} |}.

(** A backend in which every request succeeds. *)
Definition up : Env :=
  {| companies_select := fun _ _ => ok (Some acme);
     companies_update := fun _ _ _ => ok tt;
     profiles_select := fun _ _ => ok (Some ana_profile);
     storage_upload := fun _ _ _ _ => ok tt;
     storage_getPublicUrl := fun bucket path => ("https://cdn/" ++ bucket ++ "/" ++ path)%string;
     auth_signUp := fun _ _ _ _ _ _ =>
       ok {| Supabase.signed_up_user := Some ana;
             Supabase.signed_up_session := Some ana_session |};
     auth_signInWithPassword := fun _ _ _ => ok tt;
     auth_signOut := fun _ => ok tt;
     auth_resend := fun _ _ _ => ok tt;
     auth_getSession := fun _ => ok (Some ana_session);
     Date_now := fun _ => 1700000000000%N;
     window_location_origin := "https://talentup.app" |}.

(** A backend in which every request is answered with an error. *)
Definition down : Env :=
  {| companies_select := fun _ _ => failed None "select failed";
     companies_update := fun _ _ _ => failed tt "update failed";
     profiles_select := fun _ _ => failed None "profiles failed";
     storage_upload := fun _ _ _ _ => failed tt "upload failed";
     storage_getPublicUrl := storage_getPublicUrl up;
     auth_signUp := fun _ _ _ _ _ _ =>
       failed {| Supabase.signed_up_user := None;
                 Supabase.signed_up_session := None |} "signup failed";
     auth_signInWithPassword := fun _ _ _ => failed tt "bad password";
     auth_signOut := fun _ => failed tt "signout failed";
     auth_resend := fun _ _ _ => failed tt "rate limit exceeded";
     auth_getSession := fun _ => failed None "no session";
     Date_now := Date_now up;
     window_location_origin := window_location_origin up |}.

(** A backend in which the storage works and the update of [companies] is
    refused. *)
Definition read_only : Env :=
  {| companies_select := companies_select up;
     companies_update := fun _ _ _ => failed tt "update failed";
     profiles_select := profiles_select up;
     storage_upload := storage_upload up;
     storage_getPublicUrl := storage_getPublicUrl up;
     auth_signUp := auth_signUp up;
     auth_signInWithPassword := auth_signInWithPassword up;
     auth_signOut := auth_signOut up;
     auth_resend := auth_resend up;
     auth_getSession := auth_getSession up;
     Date_now := Date_now up;
     window_location_origin := window_location_origin up |}.

(** A backend in which the address given to [signUp] is already in use:
    no error, a user, no session. *)
Definition taken : Env :=
  {| companies_select := companies_select up;
     companies_update := companies_update up;
     profiles_select := profiles_select up;
     storage_upload := storage_upload up;
     storage_getPublicUrl := storage_getPublicUrl up;
     auth_signUp := fun _ _ _ _ _ _ =>
       ok {| Supabase.signed_up_user := Some ana;
             Supabase.signed_up_session := None |};
     auth_signInWithPassword := auth_signInWithPassword up;
     auth_signOut := auth_signOut up;
     auth_resend := auth_resend up;
     auth_getSession := auth_getSession up;
     Date_now := Date_now up;
     window_location_origin := window_location_origin up |}.

(** A backend that cannot be reached: every awaited request is rejected. *)
Definition unreachable : Js.Error := Js.new_Error "Failed to fetch".

Definition offline : Env :=
  {| companies_select := fun _ _ => Js.Thrown unreachable;
     companies_update := fun _ _ _ => Js.Thrown unreachable;
     profiles_select := fun _ _ => Js.Thrown unreachable;
     storage_upload := fun _ _ _ _ => Js.Thrown unreachable;
     storage_getPublicUrl := storage_getPublicUrl up;
     auth_signUp := fun _ _ _ _ _ _ => Js.Thrown unreachable;
     auth_signInWithPassword := fun _ _ _ => Js.Thrown unreachable;
     auth_signOut := fun _ => Js.Thrown unreachable;
     auth_resend := fun _ _ _ => Js.Thrown unreachable;
     auth_getSession := fun _ => Js.Thrown unreachable;
     Date_now := Date_now up;
     window_location_origin := window_location_origin up |}.

(** A backend with no row for the user in either table. *)
Definition no_rows : Env :=
  {| companies_select := fun _ _ => ok None;
     companies_update := companies_update up;
     profiles_select := fun _ _ => ok None;
     storage_upload := storage_upload up;
     storage_getPublicUrl := storage_getPublicUrl up;
     auth_signUp := auth_signUp up;
     auth_signInWithPassword := auth_signInWithPassword up;
     auth_signOut := auth_signOut up;
     auth_resend := auth_resend up;
     auth_getSession := fun _ => ok None;
     Date_now := Date_now up;
     window_location_origin := window_location_origin up |}.

(** A user whose metadata holds no role. *)
Definition guest : Supabase.User :=
  {| Supabase.id := "u2"; Supabase.user_metadata := Some [("name", "Guest")] |}.

Definition guest_session : Supabase.Session :=
  {| Supabase.access_token := "token2"; Supabase.user := Some guest |}.

Definition quiet : World := {| trace := []; timers := [] |}.

Definition form (name email : string) : CompanyProfile.CompanyProfileFormData :=
  {| CompanyProfile.name := name;
     CompanyProfile.contact_email := email;
     CompanyProfile.description := Some "";
     CompanyProfile.sector := Some "" |}.

(** The page after [acme] has been loaded and the form filled in. *)
Definition page (v : CompanyProfile.CompanyProfileFormData) : CompanyProfile.State :=
  {| CompanyProfile.loading := false;
     CompanyProfile.profile := Some acme;
     CompanyProfile.uploading := false;
     CompanyProfile.values := v;
     CompanyProfile.errors := [] |}.

Definition signed_in : AuthContext.State :=
  {| AuthContext.user := Some ana;
     AuthContext.session := Some ana_session;
     AuthContext.profile := Some ana_profile;
     AuthContext.loading := false |}.

End Sample.

(** * Properties *)

(** ** Strings and traces *)

Lemma split_not_empty (sep : ascii) (s : string) : Js.split sep s <> [].
Proof.
  induction s as [|c rest IH]; simpl.
  - discriminate.
  - destruct (Ascii.eqb c sep); [discriminate|].
    destruct (Js.split sep rest); discriminate.
Qed.

Lemma pop_some (l : list string) : l <> [] -> exists x, Js.pop l = Some x.
Proof.
  induction l as [|x rest IH]; intros Hne; [contradiction|].
  destruct rest as [|y rest'].
  - exists x. reflexivity.
  - destruct IH as [z Hz]; [discriminate|].
    exists z. simpl in *. exact Hz.
Qed.

Lemma prefix_append (s t : string) : String.prefix s (s ++ t) = true.
Proof.
  induction s as [|c s IH]; simpl.
  - destruct t; reflexivity.
  - destruct (Ascii.ascii_dec c c) as [_|Hne]; [exact IH|contradiction].
Qed.

Lemma append_assoc (a b c : string) : ((a ++ b) ++ c = a ++ (b ++ c))%string.
Proof.
  induction a as [|x a IH]; simpl; [reflexivity|now rewrite IH].
Qed.

Lemma toasts_app (a b : list Event) : toasts (a ++ b) = toasts a ++ toasts b.
Proof. apply flat_map_app. Qed.

Lemma calls_app (a b : list Event) : calls (a ++ b) = calls a ++ calls b.
Proof. apply flat_map_app. Qed.

Lemma console_errors_app (a b : list Event) :
  console_errors (a ++ b) = console_errors a ++ console_errors b.
Proof. apply flat_map_app. Qed.

(** ** The schema of the form *)

Lemma optional_text_passes (v : option string) :
  Zod.or (Zod.optional Zod.string_) (Zod.literal "") v = [].
Proof. destruct v; reflexivity. Qed.

(** What the schema reports, field by field: the optional fields never
    contribute. *)
Lemma companyProfileSchema_issues isEmail v :
  CompanyProfile.companyProfileSchema isEmail v =
    (if Nat.ltb (String.length (CompanyProfile.name v)) 2
     then [{| Zod.path := "name";
              Zod.message := "El nombre debe tener al menos 2 caracteres" |}]
     else [])
    ++ (if isEmail (CompanyProfile.contact_email v) then []
        else [{| Zod.path := "contact_email"; Zod.message := "Email inválido" |}]).
Proof.
  unfold CompanyProfile.companyProfileSchema, Zod.at_key.
  rewrite !optional_text_passes. simpl. rewrite !app_nil_r.
  unfold Zod.string_min, Zod.string_email.
  destruct (Nat.ltb _ 2), (isEmail _); reflexivity.
Qed.

Lemma accepts_iff isEmail v :
  CompanyProfile.accepts isEmail v = true <->
  2 <= String.length (CompanyProfile.name v) /\
  isEmail (CompanyProfile.contact_email v) = true.
Proof.
  unfold CompanyProfile.accepts, CompanyProfile.safeParse.
  rewrite companyProfileSchema_issues.
  destruct (Nat.ltb_spec (String.length (CompanyProfile.name v)) 2) as [Hlt|Hge];
    destruct (isEmail (CompanyProfile.contact_email v)); simpl;
    split; intros H; try discriminate; try (destruct H; discriminate);
    try (destruct H; lia); auto.
Qed.

(** C2, as the code has it: the schema accepts a form when its name has at
    least two characters and its email passes the format test.  The
    optional fields play no part. *)
Theorem schema_accepts_names_of_two_or_more isEmail v :
  2 <= String.length (CompanyProfile.name v) ->
  isEmail (CompanyProfile.contact_email v) = true ->
  CompanyProfile.safeParse isEmail v = inr v.
Proof.
  intros Hname Hemail.
  unfold CompanyProfile.safeParse. rewrite companyProfileSchema_issues.
  rewrite Hemail.
  destruct (Nat.ltb_spec (String.length (CompanyProfile.name v)) 2); [lia|].
  reflexivity.
Qed.

Lemma schema_accepts_names_of_two_or_more_witness :
  CompanyProfile.safeParse Sample.isEmail (Sample.form "Acme" "hi@acme.io")
  = inr (Sample.form "Acme" "hi@acme.io").
Proof.
  apply (@schema_accepts_names_of_two_or_more Sample.isEmail
           (Sample.form "Acme" "hi@acme.io")).
  - simpl. lia.
  - reflexivity.
Defined.

(** C2, as stated, fails: a name of one character is not empty, its email
    is valid, and the schema rejects the form because of the name. *)
Lemma name_of_one_character_rejected :
  1 <= String.length (CompanyProfile.name (Sample.form "A" "a@b.co")) /\
  Sample.isEmail (CompanyProfile.contact_email (Sample.form "A" "a@b.co")) = true /\
  CompanyProfile.safeParse Sample.isEmail (Sample.form "A" "a@b.co")
  = inl [{| Zod.path := "name";
            Zod.message := "El nombre debe tener al menos 2 caracteres" |}].
Proof.
  split; [simpl; lia|].
  split; reflexivity.
Qed.

(** C8: the schema rejects every form whose email fails the format test,
    with the issue [Email inválido] on [contact_email], and accepts every
    name of exactly two characters next to an email that passes it. *)
Theorem schema_rejects_bad_email_accepts_two_character_name isEmail v :
  (isEmail (CompanyProfile.contact_email v) = false ->
   CompanyProfile.accepts isEmail v = false /\
   In {| Zod.path := "contact_email"; Zod.message := "Email inválido" |}
      (CompanyProfile.companyProfileSchema isEmail v)) /\
  (String.length (CompanyProfile.name v) = 2 ->
   isEmail (CompanyProfile.contact_email v) = true ->
   CompanyProfile.safeParse isEmail v = inr v).
Proof.
  split.
  - intros Hbad. split.
    + destruct (CompanyProfile.accepts isEmail v) eqn:Hacc; [|reflexivity].
      apply accepts_iff in Hacc. destruct Hacc as [_ Hok]. congruence.
    + rewrite companyProfileSchema_issues, Hbad.
      apply in_or_app. right. left. reflexivity.
  - intros Htwo Hemail.
    unfold CompanyProfile.safeParse. rewrite companyProfileSchema_issues.
    rewrite Htwo, Hemail. reflexivity.
Qed.

Lemma schema_rejects_bad_email_accepts_two_character_name_witness :
  CompanyProfile.accepts Sample.isEmail (Sample.form "Acme" "acme.io") = false /\
  CompanyProfile.safeParse Sample.isEmail (Sample.form "HP" "hi@hp.com")
  = inr (Sample.form "HP" "hi@hp.com").
Proof.
  split.
  - apply (proj1 (@schema_rejects_bad_email_accepts_two_character_name
                    Sample.isEmail (Sample.form "Acme" "acme.io"))).
    reflexivity.
  - apply (proj2 (@schema_rejects_bad_email_accepts_two_character_name
                    Sample.isEmail (Sample.form "HP" "hi@hp.com")));
      reflexivity.
Defined.

(** ** Running a computation *)

Ltac run :=
  cbv [bind ret raise catch get put Monad_Async Exc_Async State_Async
       finally not_awaited emit request toast console_log console_error
       setTimeout now throw_if_error update outcome state world after] in *;
  cbn [trace timers fst snd] in *.

(** Case analysis on the answer to the next request. *)
Ltac answer :=
  match goal with
  | |- context [match ?x with Js.Returned _ => _ | Js.Thrown _ => _ end] =>
      let data := fresh "data" in
      let err := fresh "err" in
      destruct x as [[data [err|]]|err]
  end.

Lemma fileExt_defined (file : Supabase.File) :
  exists ext, CompanyProfile.fileExt file = Some ext.
Proof.
  unfold CompanyProfile.fileExt. apply pop_some, split_not_empty.
Qed.

Lemma filePath_under_user u timestamp file :
  String.prefix (Supabase.id u ++ "/" ++ Supabase.id u ++ "/")
    (CompanyProfile.filePath u timestamp file) = true.
Proof.
  unfold CompanyProfile.filePath, CompanyProfile.fileName.
  set (rest := (Js.number_to_string timestamp ++ "." ++ _)%string).
  replace (Supabase.id u ++ "/" ++ Supabase.id u ++ "/" ++ rest)%string
    with ((Supabase.id u ++ "/" ++ Supabase.id u ++ "/") ++ rest)%string.
  - apply prefix_append.
  - rewrite append_assoc. simpl. rewrite append_assoc. reflexivity.
Qed.

(** What [uploadFile] does for a signed-in user, by the answer of the
    storage. *)
Lemma uploadFile_run env u file bucket st w :
  CompanyProfile.uploadFile env (Some u) file bucket st w =
  let path := CompanyProfile.filePath u (Date_now env (trace w)) file in
  let sent := Called (Supabase.StorageUpload bucket path file) in
  match storage_upload env (trace w) bucket path file with
  | Js.Returned reply =>
      match Supabase.error reply with
      | Some e => (Js.Thrown e, st, after w [sent])
      | None =>
          (Js.Returned (storage_getPublicUrl env bucket path), st,
           after w [sent; Called (Supabase.StorageGetPublicUrl bucket path)])
      end
  | Js.Thrown e => (Js.Thrown e, st, after w [sent])
  end.
Proof.
  unfold CompanyProfile.uploadFile. run.
  destruct (storage_upload _ _ _ _ _) as [[d [e|]]|e]; cbn; try reflexivity.
  rewrite <- app_assoc. reflexivity.
Qed.

(** C9: for a signed-in user, [uploadFile] stores the file under
    [${user.id}/${user.id}/${timestamp}.${ext}], where [ext] is what
    follows the last dot of the name of the file: the path begins with
    the identifier of the user, twice.  The upload, and after it the
    request for the public address, are the only requests, both with this
    path.  Without a user, [uploadFile] throws and nothing is sent. *)
Theorem upload_path_scoped_to_user env file bucket st w :
  (forall u, exists ext path,
      CompanyProfile.fileExt file = Some ext /\
      path = (Supabase.id u ++ "/" ++ Supabase.id u ++ "/"
              ++ Js.number_to_string (Date_now env (trace w)) ++ "." ++ ext)%string /\
      String.prefix (Supabase.id u ++ "/" ++ Supabase.id u ++ "/") path = true /\
      exists rest,
        world (CompanyProfile.uploadFile env (Some u) file bucket st w)
        = after w (Called (Supabase.StorageUpload bucket path file) :: rest) /\
        (rest = [] \/ rest = [Called (Supabase.StorageGetPublicUrl bucket path)])) /\
  CompanyProfile.uploadFile env None file bucket st w
  = (Js.Thrown (Js.new_Error "No user found"), st, w).
Proof.
  split; [|reflexivity].
  intros u. destruct (fileExt_defined file) as [ext Hext].
  pose proof (filePath_under_user u (Date_now env (trace w)) file) as Hprefix.
  rewrite uploadFile_run.
  unfold CompanyProfile.filePath, CompanyProfile.fileName in *.
  rewrite Hext in *. cbn [Js.template] in *.
  exists ext. eexists. split; [reflexivity|]. split; [reflexivity|].
  split; [exact Hprefix|].
  cbv zeta.
  destruct (storage_upload _ _ _ _ _) as [[d [e|]]|e]; cbn;
    eexists; split; try reflexivity; auto.
Qed.

(** ** The authentication context *)

(** C10: outside every [AuthProvider] the context is [undefined] and
    [useAuth] throws; under an [AuthProvider] it returns the value that
    this provider gives, with its four state fields and four operations. *)
Theorem useAuth_throws_outside_provider :
  (forall providers,
      AuthContext.useContext providers = None ->
      AuthContext.useAuth providers
      = Js.Thrown (Js.new_Error "useAuth must be used within an AuthProvider")) /\
  (forall env st outer,
      AuthContext.useAuth (AuthContext.value env st :: outer)
      = Js.Returned (AuthContext.value env st) /\
      AuthContext.Value.user (AuthContext.value env st) = AuthContext.user st /\
      AuthContext.Value.session (AuthContext.value env st) = AuthContext.session st /\
      AuthContext.Value.profile (AuthContext.value env st) = AuthContext.profile st /\
      AuthContext.Value.loading (AuthContext.value env st) = AuthContext.loading st /\
      AuthContext.Value.signUp (AuthContext.value env st) = AuthContext.signUp env /\
      AuthContext.Value.signIn (AuthContext.value env st) = AuthContext.signIn env /\
      AuthContext.Value.signOut (AuthContext.value env st) = AuthContext.signOut env /\
      AuthContext.Value.resendConfirmation (AuthContext.value env st)
      = AuthContext.resendConfirmation env).
Proof.
  split.
  - intros providers Hnone. unfold AuthContext.useAuth. rewrite Hnone. reflexivity.
  - intros env st outer. repeat split.
Qed.

Lemma useAuth_throws_outside_provider_witness :
  AuthContext.useAuth []
  = Js.Thrown (Js.new_Error "useAuth must be used within an AuthProvider").
Proof.
  apply (proj1 useAuth_throws_outside_provider []). reflexivity.
Defined.

(** C5: when the sign-out request is answered, with an error or without,
    [signOut] returns and has set [user], [session] and [profile] to
    [null], whatever they were. *)
Theorem signOut_clears_local_state env st w reply :
  auth_signOut env (trace w) = Js.Returned reply ->
  AuthContext.signOut env st w
  = (Js.Returned tt,
     {| AuthContext.user := None; AuthContext.session := None;
        AuthContext.profile := None; AuthContext.loading := AuthContext.loading st |},
     after w [Called Supabase.AuthSignOut]).
Proof.
  intros Hanswer. unfold AuthContext.signOut, AuthContext.setUser,
    AuthContext.setSession, AuthContext.setProfile. run.
  rewrite Hanswer. reflexivity.
Qed.

Lemma signOut_clears_local_state_witness :
  AuthContext.signOut Sample.down Sample.signed_in Sample.quiet
  = (Js.Returned tt,
     {| AuthContext.user := None; AuthContext.session := None;
        AuthContext.profile := None; AuthContext.loading := false |},
     after Sample.quiet [Called Supabase.AuthSignOut]).
Proof.
  apply (@signOut_clears_local_state Sample.down Sample.signed_in Sample.quiet
           {| Supabase.data := tt;
              Supabase.error := Some {| Js.message := "signout failed"; Js.detail := "500" |} |}).
  reflexivity.
Defined.

(** C3, as the code has it: [signUp] hands the error of the backend on
    unchanged; when the backend reports no error it resolves to
    [{ error: null }] unless the answer holds a user and no session, in
    which case it resolves to an error of its own, [Email ya registrado]. *)
Theorem signUp_result env email password name role st w reply :
  auth_signUp env (trace w ++ [ConsoleLog "SignUp - Redirect URL set to:"])
    email password (window_location_origin env ++ "/confirm") name
    (AuthContext.role_name role) = Js.Returned reply ->
  exists result,
    outcome (AuthContext.signUp env email password name role st w) = Js.Returned result /\
    (forall e, Supabase.error reply = Some e -> AuthContext.error result = Some e) /\
    (Supabase.error reply = None ->
     Supabase.signed_up_user (Supabase.data reply) <> None ->
     Supabase.signed_up_session (Supabase.data reply) = None ->
     AuthContext.error result = Some (Js.new_Error "Email ya registrado")) /\
    (AuthContext.error result = None <->
     Supabase.error reply = None /\
     ~ (Supabase.signed_up_user (Supabase.data reply) <> None /\
        Supabase.signed_up_session (Supabase.data reply) = None)).
Proof.
  intros Hanswer.
  unfold AuthContext.signUp. run. rewrite Hanswer. clear Hanswer.
  destruct reply as [[u s] [e|]]; cbn.
  - eexists. split; [reflexivity|]. cbn.
    split; [intros e' He; exact He|]. split; [discriminate|].
    split; [discriminate|intros [He _]; discriminate].
  - destruct u as [u|], s as [s|]; cbn;
      (eexists; split; [reflexivity|]); cbn;
      (split; [discriminate|]);
      (split; [intros _ Hu Hs; congruence|]);
      split; try discriminate; try (intros _; split; [reflexivity|]);
      try (intros [_ Hs]; discriminate); try (intros [Hu _]; congruence).
    intros [_ Hnot]. exfalso. apply Hnot. split; [discriminate|reflexivity].
Qed.

Lemma signUp_result_witness :
  exists result,
    outcome (AuthContext.signUp Sample.down "ana@acme.io" "secret" "Ana"
               AuthContext.company AuthContext.initial Sample.quiet)
    = Js.Returned result /\
    AuthContext.error result
    = Some {| Js.message := "signup failed"; Js.detail := "500" |}.
Proof.
  destruct (@signUp_result Sample.down "ana@acme.io" "secret" "Ana"
              AuthContext.company AuthContext.initial Sample.quiet
              {| Supabase.data := {| Supabase.signed_up_user := None;
                                     Supabase.signed_up_session := None |};
                 Supabase.error := Some {| Js.message := "signup failed";
                                           Js.detail := "500" |} |}
              eq_refl)
    as [result [Hrun [Herror _]]].
  exists result. split; [exact Hrun|]. apply Herror. reflexivity.
Defined.

(** C3, as stated, fails: the backend answers the sign-up without an
    error, with a user and no session, and [signUp] resolves to an error. *)
Lemma signUp_error_without_backend_error :
  auth_signUp Sample.taken [ConsoleLog "SignUp - Redirect URL set to:"]
    "ana@acme.io" "secret" "https://talentup.app/confirm" "Ana" "company"
  = Js.Returned {| Supabase.data := {| Supabase.signed_up_user := Some Sample.ana;
                                       Supabase.signed_up_session := None |};
                   Supabase.error := None |} /\
  outcome (AuthContext.signUp Sample.taken "ana@acme.io" "secret" "Ana"
             AuthContext.company AuthContext.initial Sample.quiet)
  = Js.Returned {| AuthContext.error := Some (Js.new_Error "Email ya registrado") |}.
Proof.
  split; reflexivity.
Qed.

(** C4: when the session has a user whose metadata holds a role (a string
    that is not empty, as 'developer' and 'company' are), the listener of
    the auth state and the callback of the initial session both leave a
    profile made of the identifier of the user and of that role, with
    empty [id] and timestamps; the fetch of the row is only put on a
    timer and no request has been sent yet.  When the session has no
    user, the listener sets the profile to [null]. *)
Theorem temporary_profile_from_metadata event st w :
  (forall s u userRole,
      AuthContext.session_user s = Some u ->
      AuthContext.metadata_role u = Some userRole ->
      Js.truthy userRole = true ->
      let expected :=
        {| Profiles.id := ""; Profiles.user_id := Supabase.id u;
           Profiles.role := userRole;
           Profiles.created_at := ""; Profiles.updated_at := "" |} in
      let listened := AuthContext.onAuthStateChange event s st w in
      let loaded :=
        AuthContext.onGetSession
          {| Supabase.data := s; Supabase.error := None |} st w in
      outcome listened = Js.Returned tt /\
      AuthContext.profile (state listened) = Some expected /\
      calls (trace (world listened)) = calls (trace w) /\
      timers (world listened) = timers w ++ [FetchProfileTask (Supabase.id u)] /\
      outcome loaded = Js.Returned tt /\
      AuthContext.profile (state loaded) = Some expected /\
      calls (trace (world loaded)) = calls (trace w) /\
      timers (world loaded) = timers w ++ [FetchProfileTask (Supabase.id u)]) /\
  (forall s,
      AuthContext.session_user s = None ->
      outcome (AuthContext.onAuthStateChange event s st w) = Js.Returned tt /\
      AuthContext.profile (state (AuthContext.onAuthStateChange event s st w)) = None).
Proof.
  split.
  - intros s u userRole Huser Hrole Htruthy.
    unfold AuthContext.onAuthStateChange, AuthContext.onGetSession,
      AuthContext.setSession, AuthContext.setUser, AuthContext.setProfile,
      AuthContext.setLoading, AuthContext.tempProfile.
    cbn [Supabase.data]. rewrite Huser, Hrole, Htruthy. run.
    rewrite !calls_app. cbn. rewrite !app_nil_r.
    repeat split.
  - intros s Huser.
    unfold AuthContext.onAuthStateChange, AuthContext.setSession,
      AuthContext.setUser, AuthContext.setProfile, AuthContext.setLoading.
    rewrite Huser. run. split; reflexivity.
Qed.

Lemma temporary_profile_from_metadata_witness :
  AuthContext.profile
    (state (AuthContext.onAuthStateChange "SIGNED_IN"
              (Some Sample.ana_session) AuthContext.initial Sample.quiet))
  = Some {| Profiles.id := ""; Profiles.user_id := "u1"; Profiles.role := "company";
            Profiles.created_at := ""; Profiles.updated_at := "" |} /\
  AuthContext.profile
    (state (AuthContext.onAuthStateChange "SIGNED_OUT" None
              Sample.signed_in Sample.quiet))
  = None.
Proof.
  split.
  - apply (proj1 (@temporary_profile_from_metadata "SIGNED_IN"
                    AuthContext.initial Sample.quiet)
             (Some Sample.ana_session) Sample.ana "company");
      reflexivity.
  - apply (proj2 (@temporary_profile_from_metadata "SIGNED_OUT"
                    Sample.signed_in Sample.quiet) None).
    reflexivity.
Defined.

(** ** The page: what is sent *)

(** What [loadProfile] sends and shows: one select, and a toast when the
    select fails. *)
Lemma loadProfile_world env u st w :
  exists shown,
    world (CompanyProfile.loadProfile env (Some u) st w)
    = after w (Called (Supabase.CompaniesSelectByUser (Supabase.id u)) :: shown) /\
    (shown = [] \/
     shown = [Toasted (CompanyProfile.destructive "Error" "No se pudo cargar el perfil")]).
Proof.
  unfold CompanyProfile.loadProfile, CompanyProfile.setProfile,
    CompanyProfile.setValue_name, CompanyProfile.setValue_contact_email,
    CompanyProfile.setValue_description, CompanyProfile.setValue_sector,
    CompanyProfile.setValues.
  run. answer; cbn.
  - eexists. split; [rewrite <- app_assoc; reflexivity|]. right. reflexivity.
  - destruct data; cbn; (eexists; split; [reflexivity|]); left; reflexivity.
  - eexists. split; [rewrite <- app_assoc; reflexivity|]. right. reflexivity.
Qed.

(** What [onSubmit] sends: the update, and after a successful update the
    select of [loadProfile]. *)
Lemma onSubmit_calls env u closed_profile data st w :
  exists later,
    calls (trace (world (CompanyProfile.onSubmit env (Some u) closed_profile data st w)))
    = calls (trace w)
      ++ Supabase.CompaniesUpdateByUser
           (CompanyProfile.profileData closed_profile u data) (Supabase.id u) :: later /\
    (later = [] \/ later = [Supabase.CompaniesSelectByUser (Supabase.id u)]).
Proof.
  unfold CompanyProfile.onSubmit, CompanyProfile.setLoading. run.
  answer; cbn [Supabase.error Supabase.data trace timers fst snd].
  - exists []. split; [|left; reflexivity].
    rewrite !calls_app. cbn. rewrite app_nil_r. reflexivity.
  - match goal with
    | |- context [CompanyProfile.loadProfile env (Some u) ?s ?v] =>
        destruct (loadProfile_world env u s v) as [shown [Hworld Hshown]];
        destruct (CompanyProfile.loadProfile env (Some u) s v) as [[r s'] w']
    end.
    unfold world in Hworld. cbn in Hworld. subst w'. cbn.
    exists [Supabase.CompaniesSelectByUser (Supabase.id u)].
    split; [|right; reflexivity].
    unfold after. cbn. rewrite !calls_app. cbn.
    destruct Hshown; subst shown; cbn; rewrite <- !app_assoc; reflexivity.
  - exists []. split; [|left; reflexivity].
    rewrite !calls_app. cbn. rewrite app_nil_r. reflexivity.
Qed.

(** A form that the schema accepts goes to [onSubmit] as it is. *)
Lemma handleSubmit_valid env user closed_profile isEmail st w data :
  CompanyProfile.safeParse isEmail (CompanyProfile.values st) = inr data ->
  CompanyProfile.handleSubmit env user closed_profile isEmail st w
  = CompanyProfile.onSubmit env user closed_profile data
      {| CompanyProfile.loading := CompanyProfile.loading st;
         CompanyProfile.profile := CompanyProfile.profile st;
         CompanyProfile.uploading := CompanyProfile.uploading st;
         CompanyProfile.values := CompanyProfile.values st;
         CompanyProfile.errors := [] |} w.
Proof.
  intros Hvalid. unfold CompanyProfile.handleSubmit, CompanyProfile.setErrors.
  run. rewrite Hvalid. reflexivity.
Qed.

(** A form that the schema rejects sends nothing. *)
Lemma handleSubmit_invalid env user closed_profile isEmail st w issues :
  CompanyProfile.safeParse isEmail (CompanyProfile.values st) = inl issues ->
  world (CompanyProfile.handleSubmit env user closed_profile isEmail st w) = w.
Proof.
  intros Hinvalid. unfold CompanyProfile.handleSubmit, CompanyProfile.setErrors.
  run. rewrite Hinvalid. reflexivity.
Qed.

Lemma or_null_empty (v : option string) :
  v = None \/ v = Some "" -> Js.of_nullable (Js.or_null v) = Js.Null.
Proof. intros [->| ->]; reflexivity. Qed.

Lemma or_null_text (v : option string) (s : string) :
  v = Some s -> s <> "" -> Js.of_nullable (Js.or_null v) = Js.Val s.
Proof.
  intros -> Hne. destruct s; [contradiction|reflexivity].
Qed.

(** C6: the submission of a form that the schema accepts, by a signed-in
    user, sends one update of [companies], for the rows whose [user_id] is
    that of the user; the only other request it may send is the select
    that reloads the profile.  The update carries the name and the email
    of the form as they are, and [null] for a description or a sector
    that is empty or missing. *)
Theorem submit_sends_one_update_by_owner env u closed_profile isEmail st w data :
  CompanyProfile.safeParse isEmail (CompanyProfile.values st) = inr data ->
  exists payload later,
    calls (trace (world (CompanyProfile.handleSubmit env (Some u) closed_profile
                           isEmail st w)))
    = calls (trace w) ++ Supabase.CompaniesUpdateByUser payload (Supabase.id u) :: later /\
    (later = [] \/ later = [Supabase.CompaniesSelectByUser (Supabase.id u)]) /\
    Supabase.set_user_id payload = Supabase.id u /\
    Supabase.set_name payload = Js.Val (CompanyProfile.name data) /\
    Supabase.set_contact_email payload = Js.Val (CompanyProfile.contact_email data) /\
    (CompanyProfile.description data = None \/ CompanyProfile.description data = Some "" ->
     Supabase.set_description payload = Js.Null) /\
    (forall s, CompanyProfile.description data = Some s -> s <> "" ->
               Supabase.set_description payload = Js.Val s) /\
    (CompanyProfile.sector data = None \/ CompanyProfile.sector data = Some "" ->
     Supabase.set_sector payload = Js.Null) /\
    (forall s, CompanyProfile.sector data = Some s -> s <> "" ->
               Supabase.set_sector payload = Js.Val s).
Proof.
  intros Hvalid. rewrite (handleSubmit_valid _ _ _ _ _ _ Hvalid).
  match goal with
  | |- context [CompanyProfile.onSubmit env (Some u) closed_profile data ?s w] =>
      destruct (onSubmit_calls env u closed_profile data s w) as [later [Hcalls Hlater]]
  end.
  exists (CompanyProfile.profileData closed_profile u data), later.
  split; [exact Hcalls|]. split; [exact Hlater|].
  cbn [CompanyProfile.profileData Supabase.set_user_id Supabase.set_name
       Supabase.set_contact_email Supabase.set_description Supabase.set_sector].
  repeat split; auto using or_null_empty, or_null_text.
Qed.

Lemma submit_sends_one_update_by_owner_witness :
  exists payload later,
    calls (trace (world (CompanyProfile.handleSubmit Sample.up (Some Sample.ana)
                           (Some Sample.acme) Sample.isEmail
                           (Sample.page (Sample.form "Acme" "hi@acme.io"))
                           Sample.quiet)))
    = Supabase.CompaniesUpdateByUser payload "u1" :: later /\
    Supabase.set_name payload = Js.Val "Acme" /\
    Supabase.set_description payload = Js.Null.
Proof.
  destruct (@submit_sends_one_update_by_owner Sample.up Sample.ana (Some Sample.acme)
              Sample.isEmail (Sample.page (Sample.form "Acme" "hi@acme.io"))
              Sample.quiet (Sample.form "Acme" "hi@acme.io") eq_refl)
    as [payload [later [Hcalls [_ [_ [Hname [_ [Hdescription _]]]]]]]].
  exists payload, later. split; [exact Hcalls|]. split; [exact Hname|].
  apply Hdescription. right. reflexivity.
Defined.

(** What [handleLogoChange] does for a signed-in user, by the answers of
    the storage and of the database. *)
Lemma handleLogoChange_run env u closed_profile file st w :
  CompanyProfile.handleLogoChange env (Some u) closed_profile file st w =
  let path := CompanyProfile.filePath u (Date_now env (trace w)) file in
  let logoUrl := storage_getPublicUrl env "logos" path in
  let payload := CompanyProfile.logoData closed_profile u logoUrl in
  let uploaded := Called (Supabase.StorageUpload "logos" path file) in
  let located := Called (Supabase.StorageGetPublicUrl "logos" path) in
  let updated := Called (Supabase.CompaniesUpdateByUser payload (Supabase.id u)) in
  let idle p :=
    {| CompanyProfile.loading := CompanyProfile.loading st;
       CompanyProfile.profile := p;
       CompanyProfile.uploading := false;
       CompanyProfile.values := CompanyProfile.values st;
       CompanyProfile.errors := CompanyProfile.errors st |} in
  let failure e sent :=
    (Js.Returned tt, idle (CompanyProfile.profile st),
     after w (sent ++ [Toasted (CompanyProfile.destructive "Error"
                                  (Js.or_else (Js.message e) "No se pudo subir el logo"))])) in
  match storage_upload env (trace w) "logos" path file with
  | Js.Thrown e => failure e [uploaded]
  | Js.Returned stored =>
      match Supabase.error stored with
      | Some e => failure e [uploaded]
      | None =>
          match companies_update env (trace w ++ [uploaded; located]) payload
                  (Supabase.id u) with
          | Js.Thrown e => failure e [uploaded; located; updated]
          | Js.Returned written =>
              match Supabase.error written with
              | Some e => failure e [uploaded; located; updated]
              | None =>
                  (Js.Returned tt,
                   idle (option_map (CompanyProfile.with_logo_url logoUrl)
                           (CompanyProfile.profile st)),
                   after w [uploaded; located; updated;
                            Toasted (CompanyProfile.plain "Logo actualizado"
                                       "Tu logo se ha guardado correctamente")])
              end
          end
      end
  end.
Proof.
  unfold CompanyProfile.handleLogoChange. 
  cbv [bind ret catch Monad_Async Exc_Async finally].
  unfold CompanyProfile.setUploading at 1. cbv [update].
  rewrite uploadFile_run. cbv zeta.
  unfold CompanyProfile.setUploading, CompanyProfile.setProfile. run.
  destruct (storage_upload _ _ _ _ _) as [[d [e|]]|e];
    cbn [Supabase.error trace timers];
    try (rewrite <- !app_assoc; reflexivity).
  destruct (companies_update _ _ _ _) as [[d' [e'|]]|e'];
    cbn [Supabase.error trace timers];
    rewrite <- !app_assoc; reflexivity.
Qed.

(** C7: the two updates do not touch each other's fields.  The update of
    [onSubmit] carries as [logo_url] the one of the profile that the page
    holds; the update of [handleLogoChange] carries the new address as
    [logo_url] and, for the name, the email, the description and the
    sector, the values of the profile that the page holds; and when both
    the upload and the update succeed, the profile in the state of the
    page differs from the one before in [logo_url] only. *)
Theorem logo_and_form_updates_are_separate env u closed_profile st w :
  (forall data, exists payload later,
      calls (trace (world (CompanyProfile.onSubmit env (Some u) closed_profile data st w)))
      = calls (trace w) ++ Supabase.CompaniesUpdateByUser payload (Supabase.id u) :: later /\
      (later = [] \/ later = [Supabase.CompaniesSelectByUser (Supabase.id u)]) /\
      Supabase.set_logo_url payload = Js.opt_chain closed_profile Companies.logo_url) /\
  (forall file, exists path logoUrl payload later,
      calls (trace (world (CompanyProfile.handleLogoChange env (Some u) closed_profile
                             file st w)))
      = calls (trace w) ++ Supabase.StorageUpload "logos" path file :: later /\
      (later = [] \/
       later = [Supabase.StorageGetPublicUrl "logos" path;
                Supabase.CompaniesUpdateByUser payload (Supabase.id u)]) /\
      Supabase.set_logo_url payload = Js.Val logoUrl /\
      Supabase.set_name payload = Js.opt_chain closed_profile Companies.name /\
      Supabase.set_contact_email payload
      = Js.opt_chain closed_profile Companies.contact_email /\
      Supabase.set_description payload = Js.opt_chain closed_profile Companies.description /\
      Supabase.set_sector payload = Js.opt_chain closed_profile Companies.sector) /\
  (forall file stored written,
      let path := CompanyProfile.filePath u (Date_now env (trace w)) file in
      let logoUrl := storage_getPublicUrl env "logos" path in
      storage_upload env (trace w) "logos" path file = Js.Returned stored ->
      Supabase.error stored = None ->
      companies_update env
        (trace w ++ [Called (Supabase.StorageUpload "logos" path file);
                     Called (Supabase.StorageGetPublicUrl "logos" path)])
        (CompanyProfile.logoData closed_profile u logoUrl) (Supabase.id u)
      = Js.Returned written ->
      Supabase.error written = None ->
      let st' := state (CompanyProfile.handleLogoChange env (Some u) closed_profile
                          file st w) in
      CompanyProfile.loading st' = CompanyProfile.loading st /\
      CompanyProfile.uploading st' = false /\
      CompanyProfile.values st' = CompanyProfile.values st /\
      CompanyProfile.errors st' = CompanyProfile.errors st /\
      (CompanyProfile.profile st = None -> CompanyProfile.profile st' = None) /\
      (forall prev, CompanyProfile.profile st = Some prev ->
         CompanyProfile.profile st'
         = Some {| Companies.id := Companies.id prev;
                   Companies.name := Companies.name prev;
                   Companies.contact_email := Companies.contact_email prev;
                   Companies.description := Companies.description prev;
                   Companies.sector := Companies.sector prev;
                   Companies.logo_url := Some logoUrl |})).
Proof.
  split; [|split].
  - intros data.
    destruct (onSubmit_calls env u closed_profile data st w) as [later [Hcalls Hlater]].
    exists (CompanyProfile.profileData closed_profile u data), later.
    split; [exact Hcalls|]. split; [exact Hlater|]. reflexivity.
  - intros file. rewrite handleLogoChange_run. cbv zeta.
    set (path := CompanyProfile.filePath u (Date_now env (trace w)) file).
    set (logoUrl := storage_getPublicUrl env "logos" path).
    exists path, logoUrl, (CompanyProfile.logoData closed_profile u logoUrl).
    destruct (storage_upload _ _ _ _ _) as [[d [e|]]|e]; cbn [Supabase.error].
    1, 3: exists []; unfold world, after; cbn; rewrite !calls_app; cbn;
          repeat split; left; reflexivity.
    exists [Supabase.StorageGetPublicUrl "logos" path;
            Supabase.CompaniesUpdateByUser
              (CompanyProfile.logoData closed_profile u logoUrl) (Supabase.id u)].
    destruct (companies_update _ _ _ _) as [[d' [e'|]]|e']; cbn [Supabase.error];
      unfold world, after; cbn; rewrite !calls_app; cbn;
      repeat split; right; reflexivity.
  - intros file stored written path logoUrl Hstored Hstored_ok Hwritten Hwritten_ok.
    rewrite handleLogoChange_run. cbv zeta.
    fold path. fold logoUrl. rewrite Hstored, Hstored_ok, Hwritten, Hwritten_ok.
    unfold state. cbn.
    repeat split.
    + intros ->. reflexivity.
    + intros prev ->. reflexivity.
Qed.

Lemma logo_and_form_updates_are_separate_witness :
  CompanyProfile.profile
    (state (CompanyProfile.handleLogoChange Sample.up (Some Sample.ana)
              (Some Sample.acme) Sample.logo
              (Sample.page (Sample.form "Acme" "hi@acme.io")) Sample.quiet))
  = Some {| Companies.id := "c1";
            Companies.name := Some "Acme";
            Companies.contact_email := Some "hi@acme.io";
            Companies.description := None;
            Companies.sector := Some "Tech";
            Companies.logo_url := Some "https://cdn/logos/u1/u1/1700000000000.png" |}.
Proof.
  pose proof (proj2 (proj2 (@logo_and_form_updates_are_separate Sample.up Sample.ana
                              (Some Sample.acme)
                              (Sample.page (Sample.form "Acme" "hi@acme.io"))
                              Sample.quiet))
                Sample.logo
                {| Supabase.data := tt; Supabase.error := None |}
                {| Supabase.data := tt; Supabase.error := None |}
                eq_refl eq_refl eq_refl eq_refl) as Hstate.
  cbv zeta in Hstate.
  destruct Hstate as [_ [_ [_ [_ [_ Hprofile]]]]].
  apply (Hprofile Sample.acme). reflexivity.
Defined.

(** ** Errors of the backend *)

Lemma loadProfile_error_toasted env u st w reply e :
  companies_select env (trace w) (Supabase.id u) = Js.Returned reply ->
  Supabase.error reply = Some e ->
  toasts (trace (world (CompanyProfile.loadProfile env (Some u) st w)))
  = toasts (trace w)
    ++ [CompanyProfile.destructive "Error" "No se pudo cargar el perfil"].
Proof.
  intros Hanswer Herror. unfold CompanyProfile.loadProfile. run.
  rewrite Hanswer, Herror. cbn. rewrite !toasts_app. cbn.
  rewrite ?app_nil_r. reflexivity.
Qed.

Lemma upload_error_toasted env u closed_profile file st w reply e :
  storage_upload env (trace w) "logos"
    (CompanyProfile.filePath u (Date_now env (trace w)) file) file
  = Js.Returned reply ->
  Supabase.error reply = Some e ->
  toasts (trace (world (CompanyProfile.handleLogoChange env (Some u) closed_profile
                          file st w)))
  = toasts (trace w)
    ++ [CompanyProfile.destructive "Error"
          (Js.or_else (Js.message e) "No se pudo subir el logo")].
Proof.
  intros Hanswer Herror. rewrite handleLogoChange_run. cbv zeta.
  rewrite Hanswer, Herror. unfold world, after. cbn. rewrite !toasts_app. reflexivity.
Qed.

Lemma logo_update_error_toasted env u closed_profile file st w stored reply e :
  let path := CompanyProfile.filePath u (Date_now env (trace w)) file in
  let logoUrl := storage_getPublicUrl env "logos" path in
  storage_upload env (trace w) "logos" path file = Js.Returned stored ->
  Supabase.error stored = None ->
  companies_update env
    (trace w ++ [Called (Supabase.StorageUpload "logos" path file);
                 Called (Supabase.StorageGetPublicUrl "logos" path)])
    (CompanyProfile.logoData closed_profile u logoUrl) (Supabase.id u)
  = Js.Returned reply ->
  Supabase.error reply = Some e ->
  toasts (trace (world (CompanyProfile.handleLogoChange env (Some u) closed_profile
                          file st w)))
  = toasts (trace w)
    ++ [CompanyProfile.destructive "Error"
          (Js.or_else (Js.message e) "No se pudo subir el logo")].
Proof.
  intros path logoUrl Hstored Hstored_ok Hanswer Herror.
  rewrite handleLogoChange_run. cbv zeta. fold path. fold logoUrl.
  rewrite Hstored, Hstored_ok, Hanswer, Herror.
  unfold world, after. cbn. rewrite !toasts_app. reflexivity.
Qed.

Lemma onSubmit_error_toasted env u closed_profile data st w reply e :
  companies_update env (trace w) (CompanyProfile.profileData closed_profile u data)
    (Supabase.id u) = Js.Returned reply ->
  Supabase.error reply = Some e ->
  toasts (trace (world (CompanyProfile.onSubmit env (Some u) closed_profile data st w)))
  = toasts (trace w)
    ++ [CompanyProfile.destructive "Error"
          (Js.or_else (Js.message e) "No se pudo guardar el perfil")].
Proof.
  intros Hanswer Herror. unfold CompanyProfile.onSubmit, CompanyProfile.setLoading.
  run. rewrite Hanswer, Herror.
  cbn [trace timers fst snd]. rewrite !toasts_app. cbn.
  rewrite ?app_nil_r. reflexivity.
Qed.

Lemma signUp_error_toasted env email password name role st w reply e :
  auth_signUp env (trace w ++ [ConsoleLog "SignUp - Redirect URL set to:"])
    email password (window_location_origin env ++ "/confirm") name
    (AuthContext.role_name role) = Js.Returned reply ->
  Supabase.error reply = Some e ->
  toasts (trace (world (AuthContext.signUp env email password name role st w)))
  = toasts (trace w)
    ++ [AuthContext.destructive "Error en el registro" (Js.message e)].
Proof.
  intros Hanswer Herror. unfold AuthContext.signUp. run.
  rewrite Hanswer, Herror. cbn [trace timers fst snd].
  rewrite !toasts_app. cbn. rewrite ?app_nil_r. reflexivity.
Qed.

Lemma signIn_error_toasted env email password st w reply e :
  auth_signInWithPassword env (trace w) email password = Js.Returned reply ->
  Supabase.error reply = Some e ->
  toasts (trace (world (AuthContext.signIn env email password st w)))
  = toasts (trace w) ++ [AuthContext.destructive "Error en el login" (Js.message e)].
Proof.
  intros Hanswer Herror. unfold AuthContext.signIn. run.
  rewrite Hanswer, Herror. cbn [trace timers fst snd].
  rewrite !toasts_app. cbn. rewrite ?app_nil_r. reflexivity.
Qed.

Lemma resend_error_toasted env email st w reply e :
  auth_resend env (trace w) email (window_location_origin env ++ "/confirm")
  = Js.Returned reply ->
  Supabase.error reply = Some e ->
  exists title description variant,
    toasts (trace (world (AuthContext.resendConfirmation env email st w)))
    = toasts (trace w)
      ++ [{| Ui.title := title; Ui.description := description;
             Ui.variant := Some variant; Ui.action := None |}] /\
    (title = "Espera un momento" \/
     title = "Error al reenviar" /\ description = Js.message e /\
     variant = Ui.Destructive).
Proof.
  intros Hanswer Herror. unfold AuthContext.resendConfirmation. run.
  rewrite Hanswer, Herror.
  destruct (Js.includes "For security purposes" (Js.message e)
            || Js.includes "rate limit" (Js.message e));
    cbn [trace timers fst snd]; rewrite !toasts_app; cbn; rewrite ?app_nil_r;
    do 3 eexists; (split; [reflexivity|]); [left|right]; repeat split.
Qed.

Lemma fetchProfile_error_logged env userId st w reply e :
  profiles_select env (trace w ++ [ConsoleLog "Fetching profile for user:"]) userId
  = Js.Returned reply ->
  Supabase.error reply = Some e ->
  AuthContext.fetchProfile env userId st w
  = (Js.Returned tt, st,
     after w [ConsoleLog "Fetching profile for user:";
              Called (Supabase.ProfilesSelectByUser userId);
              ConsoleError "Error fetching profile:" e]).
Proof.
  intros Hanswer Herror. unfold AuthContext.fetchProfile. run.
  rewrite Hanswer, Herror. cbn [trace timers fst snd].
  rewrite <- !app_assoc. reflexivity.
Qed.

Lemma getInitialSession_error_ignored env st w reply :
  auth_getSession env (trace w) = Js.Returned reply ->
  toasts (trace (world (AuthContext.getInitialSession env st w))) = toasts (trace w).
Proof.
  intros Hanswer.
  unfold AuthContext.getInitialSession, AuthContext.onGetSession,
    AuthContext.setSession, AuthContext.setUser, AuthContext.setProfile,
    AuthContext.setLoading.
  run. rewrite Hanswer.
  destruct (AuthContext.session_user (Supabase.data reply)) as [u|];
    [destruct (AuthContext.metadata_role u) as [r|]; [destruct (Js.truthy r)|]|];
    cbn; rewrite !toasts_app; cbn; rewrite ?app_nil_r; reflexivity.
Qed.

(** C1, as the code has it.  An error in the answer to a request is shown
    as a toast by [loadProfile], by [handleLogoChange] (for the upload and
    for the update), by [onSubmit], and by [signUp], [signIn] and
    [resendConfirmation].  [fetchProfile] does not show it: it writes the
    error to the console and leaves its state as it was.  [signOut] and
    the read of the initial session show nothing either. *)
Theorem backend_errors_toasted_except_profile_fetch env e :
  (forall u st w reply,
      companies_select env (trace w) (Supabase.id u) = Js.Returned reply ->
      Supabase.error reply = Some e ->
      toasts (trace (world (CompanyProfile.loadProfile env (Some u) st w)))
      = toasts (trace w)
        ++ [CompanyProfile.destructive "Error" "No se pudo cargar el perfil"]) /\
  (forall u closed_profile file st w reply,
      storage_upload env (trace w) "logos"
        (CompanyProfile.filePath u (Date_now env (trace w)) file) file
      = Js.Returned reply ->
      Supabase.error reply = Some e ->
      toasts (trace (world (CompanyProfile.handleLogoChange env (Some u) closed_profile
                              file st w)))
      = toasts (trace w)
        ++ [CompanyProfile.destructive "Error"
              (Js.or_else (Js.message e) "No se pudo subir el logo")]) /\
  (forall u closed_profile file st w stored reply,
      let path := CompanyProfile.filePath u (Date_now env (trace w)) file in
      let logoUrl := storage_getPublicUrl env "logos" path in
      storage_upload env (trace w) "logos" path file = Js.Returned stored ->
      Supabase.error stored = None ->
      companies_update env
        (trace w ++ [Called (Supabase.StorageUpload "logos" path file);
                     Called (Supabase.StorageGetPublicUrl "logos" path)])
        (CompanyProfile.logoData closed_profile u logoUrl) (Supabase.id u)
      = Js.Returned reply ->
      Supabase.error reply = Some e ->
      toasts (trace (world (CompanyProfile.handleLogoChange env (Some u) closed_profile
                              file st w)))
      = toasts (trace w)
        ++ [CompanyProfile.destructive "Error"
              (Js.or_else (Js.message e) "No se pudo subir el logo")]) /\
  (forall u closed_profile data st w reply,
      companies_update env (trace w) (CompanyProfile.profileData closed_profile u data)
        (Supabase.id u) = Js.Returned reply ->
      Supabase.error reply = Some e ->
      toasts (trace (world (CompanyProfile.onSubmit env (Some u) closed_profile data st w)))
      = toasts (trace w)
        ++ [CompanyProfile.destructive "Error"
              (Js.or_else (Js.message e) "No se pudo guardar el perfil")]) /\
  (forall email password name role st w reply,
      auth_signUp env (trace w ++ [ConsoleLog "SignUp - Redirect URL set to:"])
        email password (window_location_origin env ++ "/confirm") name
        (AuthContext.role_name role) = Js.Returned reply ->
      Supabase.error reply = Some e ->
      toasts (trace (world (AuthContext.signUp env email password name role st w)))
      = toasts (trace w)
        ++ [AuthContext.destructive "Error en el registro" (Js.message e)]) /\
  (forall email password st w reply,
      auth_signInWithPassword env (trace w) email password = Js.Returned reply ->
      Supabase.error reply = Some e ->
      toasts (trace (world (AuthContext.signIn env email password st w)))
      = toasts (trace w)
        ++ [AuthContext.destructive "Error en el login" (Js.message e)]) /\
  (forall email st w reply,
      auth_resend env (trace w) email (window_location_origin env ++ "/confirm")
      = Js.Returned reply ->
      Supabase.error reply = Some e ->
      exists title description variant,
        toasts (trace (world (AuthContext.resendConfirmation env email st w)))
        = toasts (trace w)
          ++ [{| Ui.title := title; Ui.description := description;
                 Ui.variant := Some variant; Ui.action := None |}] /\
        (title = "Espera un momento" \/
         title = "Error al reenviar" /\ description = Js.message e /\
         variant = Ui.Destructive)) /\
  (forall userId st w reply,
      profiles_select env (trace w ++ [ConsoleLog "Fetching profile for user:"]) userId
      = Js.Returned reply ->
      Supabase.error reply = Some e ->
      let fetched := AuthContext.fetchProfile env userId st w in
      outcome fetched = Js.Returned tt /\
      toasts (trace (world fetched)) = toasts (trace w) /\
      console_errors (trace (world fetched)) = console_errors (trace w) ++ [e] /\
      state fetched = st) /\
  (forall st w reply,
      auth_signOut env (trace w) = Js.Returned reply ->
      Supabase.error reply = Some e ->
      toasts (trace (world (AuthContext.signOut env st w))) = toasts (trace w)) /\
  (forall st w reply,
      auth_getSession env (trace w) = Js.Returned reply ->
      Supabase.error reply = Some e ->
      toasts (trace (world (AuthContext.getInitialSession env st w)))
      = toasts (trace w)).
Proof.
  repeat apply conj.
  - intros. eapply loadProfile_error_toasted; eassumption.
  - intros. eapply upload_error_toasted; eassumption.
  - intros. eapply logo_update_error_toasted; eassumption.
  - intros. eapply onSubmit_error_toasted; eassumption.
  - intros. eapply signUp_error_toasted; eassumption.
  - intros. eapply signIn_error_toasted; eassumption.
  - intros. eapply resend_error_toasted; eassumption.
  - intros userId st w reply Hanswer Herror fetched. subst fetched.
    rewrite (fetchProfile_error_logged _ _ _ _ Hanswer Herror).
    unfold outcome, state, world, after. cbn.
    rewrite toasts_app, console_errors_app. cbn. rewrite app_nil_r.
    repeat split.
  - intros st w reply Hanswer _.
    unfold AuthContext.signOut, AuthContext.setUser, AuthContext.setSession,
      AuthContext.setProfile. run. rewrite Hanswer. cbn.
    rewrite toasts_app. cbn. apply app_nil_r.
  - intros. eapply getInitialSession_error_ignored; eassumption.
Qed.

Lemma backend_errors_toasted_except_profile_fetch_witness :
  toasts (trace (world (CompanyProfile.loadProfile Sample.down (Some Sample.ana)
                          CompanyProfile.initial Sample.quiet)))
  = [CompanyProfile.destructive "Error" "No se pudo cargar el perfil"] /\
  toasts (trace (world (CompanyProfile.handleLogoChange Sample.down (Some Sample.ana)
                          (Some Sample.acme) Sample.logo
                          (Sample.page (Sample.form "Acme" "hi@acme.io")) Sample.quiet)))
  = [CompanyProfile.destructive "Error" "upload failed"] /\
  toasts (trace (world (CompanyProfile.handleLogoChange Sample.read_only
                          (Some Sample.ana) (Some Sample.acme) Sample.logo
                          (Sample.page (Sample.form "Acme" "hi@acme.io")) Sample.quiet)))
  = [CompanyProfile.destructive "Error" "update failed"] /\
  toasts (trace (world (CompanyProfile.onSubmit Sample.down (Some Sample.ana)
                          (Some Sample.acme) (Sample.form "Acme" "hi@acme.io")
                          (Sample.page (Sample.form "Acme" "hi@acme.io")) Sample.quiet)))
  = [CompanyProfile.destructive "Error" "update failed"] /\
  toasts (trace (world (AuthContext.signIn Sample.down "ana@acme.io" "secret"
                          AuthContext.initial Sample.quiet)))
  = [AuthContext.destructive "Error en el login" "bad password"] /\
  console_errors (trace (world (AuthContext.fetchProfile Sample.down "u1"
                                  Sample.signed_in Sample.quiet)))
  = [{| Js.message := "profiles failed"; Js.detail := "500" |}].
Proof.
  pose (failure msg := {| Js.message := msg; Js.detail := "500" |}).
  pose (refused msg := {| Supabase.data := tt; Supabase.error := Some (failure msg) |}).
  split; [|split; [|split; [|split; [|split]]]].
  - apply (proj1 (@backend_errors_toasted_except_profile_fetch Sample.down
                    (failure "select failed"))
             Sample.ana CompanyProfile.initial Sample.quiet
             {| Supabase.data := None; Supabase.error := Some (failure "select failed") |});
      reflexivity.
  - apply (proj1 (proj2 (@backend_errors_toasted_except_profile_fetch Sample.down
                           (failure "upload failed")))
             Sample.ana (Some Sample.acme) Sample.logo
             (Sample.page (Sample.form "Acme" "hi@acme.io")) Sample.quiet
             (refused "upload failed"));
      reflexivity.
  - apply (proj1 (proj2 (proj2 (@backend_errors_toasted_except_profile_fetch
                                  Sample.read_only (failure "update failed"))))
             Sample.ana (Some Sample.acme) Sample.logo
             (Sample.page (Sample.form "Acme" "hi@acme.io")) Sample.quiet
             {| Supabase.data := tt; Supabase.error := None |}
             (refused "update failed"));
      reflexivity.
  - apply (proj1 (proj2 (proj2 (proj2 (@backend_errors_toasted_except_profile_fetch
                                         Sample.down (failure "update failed")))))
             Sample.ana (Some Sample.acme) (Sample.form "Acme" "hi@acme.io")
             (Sample.page (Sample.form "Acme" "hi@acme.io")) Sample.quiet
             (refused "update failed"));
      reflexivity.
  - apply (proj1 (proj2 (proj2 (proj2 (proj2 (proj2
             (@backend_errors_toasted_except_profile_fetch Sample.down
                (failure "bad password")))))))
             "ana@acme.io" "secret" AuthContext.initial Sample.quiet
             (refused "bad password"));
      reflexivity.
  - apply (proj1 (proj2 (proj2 (proj2 (proj2 (proj2 (proj2 (proj2
             (@backend_errors_toasted_except_profile_fetch Sample.down
                (failure "profiles failed")))))))))
             "u1" Sample.signed_in Sample.quiet
             {| Supabase.data := None; Supabase.error := Some (failure "profiles failed") |}
             eq_refl eq_refl).
Defined.

(** C1, as stated, fails for [fetchProfile]: the select on [profiles] is
    answered with an error, and no toast is shown; the error goes to the
    console. *)
Lemma fetchProfile_error_not_toasted :
  profiles_select Sample.down [ConsoleLog "Fetching profile for user:"] "u1"
  = Js.Returned {| Supabase.data := None;
                   Supabase.error := Some {| Js.message := "profiles failed";
                                             Js.detail := "500" |} |} /\
  AuthContext.fetchProfile Sample.down "u1" Sample.signed_in Sample.quiet
  = (Js.Returned tt, Sample.signed_in,
     {| trace := [ConsoleLog "Fetching profile for user:";
                  Called (Supabase.ProfilesSelectByUser "u1");
                  ConsoleError "Error fetching profile:"
                    {| Js.message := "profiles failed"; Js.detail := "500" |}];
        timers := [] |}) /\
  toasts (trace (world (AuthContext.fetchProfile Sample.down "u1"
                          Sample.signed_in Sample.quiet))) = [].
Proof.
  repeat split.
Qed.

(** * Further properties of the page *)

(** What [loadProfile] does for a signed-in user, by the answer to its
    select. *)
Lemma loadProfile_run env u st w :
  CompanyProfile.loadProfile env (Some u) st w =
  let selected := Called (Supabase.CompaniesSelectByUser (Supabase.id u)) in
  let failure :=
    (Js.Returned tt, st,
     after w [selected;
              Toasted (CompanyProfile.destructive "Error" "No se pudo cargar el perfil")]) in
  match companies_select env (trace w) (Supabase.id u) with
  | Js.Thrown _ => failure
  | Js.Returned reply =>
      match Supabase.error reply with
      | Some _ => failure
      | None =>
          match Supabase.data reply with
          | None => (Js.Returned tt, st, after w [selected])
          | Some row =>
              (Js.Returned tt,
               {| CompanyProfile.loading := CompanyProfile.loading st;
                  CompanyProfile.profile := Some row;
                  CompanyProfile.uploading := CompanyProfile.uploading st;
                  CompanyProfile.values :=
                    {| CompanyProfile.name := Js.or_empty (Companies.name row);
                       CompanyProfile.contact_email :=
                         Js.or_empty (Companies.contact_email row);
                       CompanyProfile.description :=
                         Some (Js.or_empty (Companies.description row));
                       CompanyProfile.sector :=
                         Some (Js.or_empty (Companies.sector row)) |};
                  CompanyProfile.errors := CompanyProfile.errors st |},
               after w [selected])
          end
      end
  end.
Proof.
  unfold CompanyProfile.loadProfile, CompanyProfile.setProfile,
    CompanyProfile.setValue_name, CompanyProfile.setValue_contact_email,
    CompanyProfile.setValue_description, CompanyProfile.setValue_sector,
    CompanyProfile.setValues.
  run.
  destruct (companies_select _ _ _) as [[d [e|]]|e];
    cbn [Supabase.error Supabase.data trace timers];
    try (rewrite <- !app_assoc; reflexivity).
  destruct d; reflexivity.
Qed.

(** What [onSubmit] does for a signed-in user, by the answer to its
    update. *)
Lemma onSubmit_run env u closed_profile data st w :
  CompanyProfile.onSubmit env (Some u) closed_profile data st w =
  let payload := CompanyProfile.profileData closed_profile u data in
  let updated := Called (Supabase.CompaniesUpdateByUser payload (Supabase.id u)) in
  let with_loading b s :=
    {| CompanyProfile.loading := b;
       CompanyProfile.profile := CompanyProfile.profile s;
       CompanyProfile.uploading := CompanyProfile.uploading s;
       CompanyProfile.values := CompanyProfile.values s;
       CompanyProfile.errors := CompanyProfile.errors s |} in
  let failure e :=
    (Js.Returned tt, with_loading false st,
     after w [updated;
              Toasted (CompanyProfile.destructive "Error"
                         (Js.or_else (Js.message e) "No se pudo guardar el perfil"))]) in
  match companies_update env (trace w) payload (Supabase.id u) with
  | Js.Thrown e => failure e
  | Js.Returned reply =>
      match Supabase.error reply with
      | Some e => failure e
      | None =>
          let reloaded :=
            CompanyProfile.loadProfile env (Some u) (with_loading true st)
              (after w [updated;
                        Toasted (CompanyProfile.plain "Perfil actualizado"
                                   "Tu perfil se ha guardado correctamente")]) in
          (Js.Returned tt, with_loading false (state reloaded), world reloaded)
      end
  end.
Proof.
  unfold CompanyProfile.onSubmit, CompanyProfile.setLoading. run.
  destruct (companies_update _ _ _ _) as [[d [e|]]|e];
    cbn [Supabase.error trace timers fst snd];
    try (rewrite <- !app_assoc; reflexivity).
  rewrite <- !app_assoc. cbn [app].
  match goal with
  | |- context [CompanyProfile.loadProfile env (Some u) ?s ?v] =>
      destruct (CompanyProfile.loadProfile env (Some u) s v) as [[r s'] w']
  end.
  reflexivity.
Qed.

(** X1: for a signed-in user and whatever the backend does (a row, no
    row, an error, a rejected request), [loadProfile] returns normally,
    sends exactly one request (the select of the row of the user) and
    leaves [loading], [uploading] and the form errors as they were. *)
Theorem loadProfile_always_settles env u st w :
  let loaded := CompanyProfile.loadProfile env (Some u) st w in
  outcome loaded = Js.Returned tt /\
  calls (trace (world loaded))
  = calls (trace w) ++ [Supabase.CompaniesSelectByUser (Supabase.id u)] /\
  timers (world loaded) = timers w /\
  CompanyProfile.loading (state loaded) = CompanyProfile.loading st /\
  CompanyProfile.uploading (state loaded) = CompanyProfile.uploading st /\
  CompanyProfile.errors (state loaded) = CompanyProfile.errors st.
Proof.
  cbv zeta. rewrite loadProfile_run. cbv zeta.
  destruct (companies_select _ _ _) as [[d [e|]]|e]; cbn [Supabase.error Supabase.data];
    [| destruct d |];
    unfold outcome, state, world, after; cbn; rewrite calls_app; cbn;
    repeat split.
Qed.

(** X2: when the select finds a row, the page keeps it as its profile and
    fills the four fields of the form from it, a [null] column becoming
    the empty string; when it finds none, the state of the page is left
    as it was.  No toast is shown in either case. *)
Theorem loadProfile_fills_form env u st w reply :
  companies_select env (trace w) (Supabase.id u) = Js.Returned reply ->
  Supabase.error reply = None ->
  let loaded := CompanyProfile.loadProfile env (Some u) st w in
  toasts (trace (world loaded)) = toasts (trace w) /\
  (Supabase.data reply = None -> state loaded = st) /\
  (forall row, Supabase.data reply = Some row ->
     CompanyProfile.profile (state loaded) = Some row /\
     CompanyProfile.name (CompanyProfile.values (state loaded))
     = match Companies.name row with Some s => s | None => "" end /\
     CompanyProfile.contact_email (CompanyProfile.values (state loaded))
     = match Companies.contact_email row with Some s => s | None => "" end /\
     CompanyProfile.description (CompanyProfile.values (state loaded))
     = Some match Companies.description row with Some s => s | None => "" end /\
     CompanyProfile.sector (CompanyProfile.values (state loaded))
     = Some match Companies.sector row with Some s => s | None => "" end).
Proof.
  intros Hanswer Hok. cbv zeta. rewrite loadProfile_run. cbv zeta.
  rewrite Hanswer, Hok.
  destruct (Supabase.data reply) as [row|];
    unfold state, world, after; cbn; rewrite toasts_app; cbn; rewrite app_nil_r;
    (split; [reflexivity|]); (split; [try discriminate; reflexivity|]).
  - intros row' Hrow. injection Hrow as <-.
    split; [reflexivity|].
    destruct row as [i [[|? ?]|] [[|? ?]|] [[|? ?]|] [[|? ?]|] l]; cbn; repeat split.
  - discriminate.
Qed.

Lemma loadProfile_fills_form_witness :
  CompanyProfile.values
    (state (CompanyProfile.loadProfile Sample.up (Some Sample.ana)
              CompanyProfile.initial Sample.quiet))
  = {| CompanyProfile.name := "Acme";
       CompanyProfile.contact_email := "hi@acme.io";
       CompanyProfile.description := Some "";
       CompanyProfile.sector := Some "Tech" |}.
Proof.
  pose proof (@loadProfile_fills_form Sample.up Sample.ana CompanyProfile.initial
                Sample.quiet
                {| Supabase.data := Some Sample.acme; Supabase.error := None |}
                eq_refl eq_refl) as Hloaded.
  cbv zeta in Hloaded. destruct Hloaded as [_ [_ Hrow]].
  destruct (Hrow Sample.acme eq_refl) as [_ [Hname [Hemail [Hdescription Hsector]]]].
  destruct (CompanyProfile.values _) as [n c d s]. cbn in *.
  rewrite Hname, Hemail, Hdescription, Hsector. reflexivity.
Defined.

(** X3: when the select fails, by an error in the answer or by a rejected
    request, the page keeps its profile and its form as they were and
    shows one toast, whose text does not depend on the error. *)
Theorem loadProfile_failure_keeps_state env u st w :
  let failure :=
    (Js.Returned tt, st,
     after w [Called (Supabase.CompaniesSelectByUser (Supabase.id u));
              Toasted (CompanyProfile.destructive "Error" "No se pudo cargar el perfil")]) in
  (forall e,
      companies_select env (trace w) (Supabase.id u) = Js.Thrown e ->
      CompanyProfile.loadProfile env (Some u) st w = failure) /\
  (forall reply e,
      companies_select env (trace w) (Supabase.id u) = Js.Returned reply ->
      Supabase.error reply = Some e ->
      CompanyProfile.loadProfile env (Some u) st w = failure).
Proof.
  cbv zeta. split.
  - intros e Hanswer. rewrite loadProfile_run. cbv zeta. rewrite Hanswer. reflexivity.
  - intros reply e Hanswer Herror. rewrite loadProfile_run. cbv zeta.
    rewrite Hanswer, Herror. reflexivity.
Qed.

Lemma loadProfile_failure_keeps_state_witness :
  state (CompanyProfile.loadProfile Sample.offline (Some Sample.ana)
           (Sample.page (Sample.form "Acme" "hi@acme.io")) Sample.quiet)
  = Sample.page (Sample.form "Acme" "hi@acme.io") /\
  state (CompanyProfile.loadProfile Sample.down (Some Sample.ana)
           (Sample.page (Sample.form "Acme" "hi@acme.io")) Sample.quiet)
  = Sample.page (Sample.form "Acme" "hi@acme.io").
Proof.
  split.
  - rewrite (proj1 (@loadProfile_failure_keeps_state Sample.offline Sample.ana
                      (Sample.page (Sample.form "Acme" "hi@acme.io")) Sample.quiet)
               Sample.unreachable eq_refl).
    reflexivity.
  - rewrite (proj2 (@loadProfile_failure_keeps_state Sample.down Sample.ana
                      (Sample.page (Sample.form "Acme" "hi@acme.io")) Sample.quiet)
               {| Supabase.data := None;
                  Supabase.error := Some {| Js.message := "select failed";
                                            Js.detail := "500" |} |}
               {| Js.message := "select failed"; Js.detail := "500" |}
               eq_refl eq_refl).
    reflexivity.
Defined.



(** X5: whatever the storage and the database answer, [handleLogoChange]
    returns normally, ends with [uploading] switched off (so that the file
    input is enabled again, and the submit button too unless a submission
    is loading), shows exactly one toast, and leaves [loading], the form
    values and the form errors as they were. *)
Theorem handleLogoChange_always_settles env u closed_profile file st w :
  let changed := CompanyProfile.handleLogoChange env (Some u) closed_profile file st w in
  outcome changed = Js.Returned tt /\
  CompanyProfile.uploading (state changed) = false /\
  CompanyProfile.fileInputDisabled (state changed) = false /\
  CompanyProfile.submitDisabled (state changed) = CompanyProfile.loading st /\
  CompanyProfile.loading (state changed) = CompanyProfile.loading st /\
  CompanyProfile.values (state changed) = CompanyProfile.values st /\
  CompanyProfile.errors (state changed) = CompanyProfile.errors st /\
  exists shown, toasts (trace (world changed)) = toasts (trace w) ++ [shown].
Proof.
  cbv zeta. rewrite handleLogoChange_run. cbv zeta.
  destruct (storage_upload _ _ _ _ _) as [[d [e|]]|e]; cbn [Supabase.error];
    [| destruct (companies_update _ _ _ _) as [[d' [e'|]]|e']; cbn [Supabase.error] |];
    unfold outcome, state, world, after, CompanyProfile.submitDisabled; cbn;
    rewrite toasts_app, orb_false_r; cbn;
    repeat split; eexists; reflexivity.
Qed.

(** What [loadProfile] leaves alone. *)
Lemma loadProfile_frame env u st w :
  outcome (CompanyProfile.loadProfile env (Some u) st w) = Js.Returned tt /\
  CompanyProfile.loading (state (CompanyProfile.loadProfile env (Some u) st w))
  = CompanyProfile.loading st /\
  CompanyProfile.uploading (state (CompanyProfile.loadProfile env (Some u) st w))
  = CompanyProfile.uploading st /\
  CompanyProfile.errors (state (CompanyProfile.loadProfile env (Some u) st w))
  = CompanyProfile.errors st.
Proof.
  rewrite loadProfile_run. cbv zeta.
  destruct (companies_select _ _ _) as [[d [e|]]|e]; cbn [Supabase.error Supabase.data];
    [| destruct d |]; repeat split.
Qed.

(** X6: whatever the database answers, [onSubmit] returns normally, ends
    with [loading] switched off (the button reads [Guardar Perfil] again
    and is enabled unless an upload is running), shows at least one
    toast, and leaves [uploading] and the form errors as they were. *)
Theorem onSubmit_always_settles env u closed_profile data st w :
  let submitted := CompanyProfile.onSubmit env (Some u) closed_profile data st w in
  outcome submitted = Js.Returned tt /\
  CompanyProfile.loading (state submitted) = false /\
  CompanyProfile.submitLabel (state submitted) = "Guardar Perfil" /\
  CompanyProfile.submitDisabled (state submitted) = CompanyProfile.uploading st /\
  CompanyProfile.uploading (state submitted) = CompanyProfile.uploading st /\
  CompanyProfile.errors (state submitted) = CompanyProfile.errors st /\
  exists shown more,
    toasts (trace (world submitted)) = toasts (trace w) ++ shown :: more.
Proof.
  cbv zeta. rewrite onSubmit_run. cbv zeta.
  destruct (companies_update _ _ _ _) as [[d [e|]]|e]; cbn [Supabase.error].
  1, 3: unfold outcome, state, world, after, CompanyProfile.submitDisabled; cbn;
        rewrite toasts_app; cbn; repeat split; do 2 eexists; reflexivity.
  match goal with
  | |- context [CompanyProfile.loadProfile env (Some u) ?s ?v] =>
      destruct (loadProfile_frame env u s v) as [_ [_ [Huploading Herrors]]];
      destruct (loadProfile_world env u s v) as [last [Hworld _]];
      destruct (CompanyProfile.loadProfile env (Some u) s v) as [[r s'] w']
  end.
  unfold outcome, state, world, CompanyProfile.submitDisabled in *. cbn in *. subst w'.
  repeat split; auto.
  unfold after. cbn. rewrite !toasts_app. cbn. rewrite <- app_assoc. cbn.
  do 2 eexists. reflexivity.
Qed.

(** X7: when the upload fails, by an error in the answer or by a rejected
    request, [handleLogoChange] sends nothing else (no update reaches the
    database) and the profile of the page stays as it was. *)
Theorem failed_upload_sends_no_update env u closed_profile file st w :
  let path := CompanyProfile.filePath u (Date_now env (trace w)) file in
  let changed := CompanyProfile.handleLogoChange env (Some u) closed_profile file st w in
  (forall e, storage_upload env (trace w) "logos" path file = Js.Thrown e ->
     calls (trace (world changed))
     = calls (trace w) ++ [Supabase.StorageUpload "logos" path file] /\
     CompanyProfile.profile (state changed) = CompanyProfile.profile st) /\
  (forall reply e,
     storage_upload env (trace w) "logos" path file = Js.Returned reply ->
     Supabase.error reply = Some e ->
     calls (trace (world changed))
     = calls (trace w) ++ [Supabase.StorageUpload "logos" path file] /\
     CompanyProfile.profile (state changed) = CompanyProfile.profile st).
Proof.
  cbv zeta. split.
  - intros e Hanswer. rewrite handleLogoChange_run. cbv zeta. rewrite Hanswer.
    unfold state, world, after. cbn. rewrite calls_app. split; reflexivity.
  - intros reply e Hanswer Herror. rewrite handleLogoChange_run. cbv zeta.
    rewrite Hanswer, Herror.
    unfold state, world, after. cbn. rewrite calls_app. split; reflexivity.
Qed.

Lemma failed_upload_sends_no_update_witness :
  calls (trace (world (CompanyProfile.handleLogoChange Sample.offline (Some Sample.ana)
                         (Some Sample.acme) Sample.logo
                         (Sample.page (Sample.form "Acme" "hi@acme.io")) Sample.quiet)))
  = [Supabase.StorageUpload "logos" "u1/u1/1700000000000.png" Sample.logo] /\
  calls (trace (world (CompanyProfile.handleLogoChange Sample.down (Some Sample.ana)
                         (Some Sample.acme) Sample.logo
                         (Sample.page (Sample.form "Acme" "hi@acme.io")) Sample.quiet)))
  = [Supabase.StorageUpload "logos" "u1/u1/1700000000000.png" Sample.logo].
Proof.
  split.
  - apply (proj1 (@failed_upload_sends_no_update Sample.offline Sample.ana
                    (Some Sample.acme) Sample.logo
                    (Sample.page (Sample.form "Acme" "hi@acme.io")) Sample.quiet)
             Sample.unreachable eq_refl).
  - apply (proj2 (@failed_upload_sends_no_update Sample.down Sample.ana
                    (Some Sample.acme) Sample.logo
                    (Sample.page (Sample.form "Acme" "hi@acme.io")) Sample.quiet)
             {| Supabase.data := tt;
                Supabase.error := Some {| Js.message := "upload failed";
                                          Js.detail := "500" |} |}
             {| Js.message := "upload failed"; Js.detail := "500" |}
             eq_refl eq_refl).
Defined.

(** X8: when the file is stored and the update of [companies] then fails,
    by an error in the answer or by a rejected request, the profile of
    the page keeps its old [logo_url]: the new address is dropped and one
    toast reports the failure. *)
Theorem failed_logo_update_keeps_profile env u closed_profile file st w stored :
  let path := CompanyProfile.filePath u (Date_now env (trace w)) file in
  let logoUrl := storage_getPublicUrl env "logos" path in
  let sent :=
    trace w ++ [Called (Supabase.StorageUpload "logos" path file);
                Called (Supabase.StorageGetPublicUrl "logos" path)] in
  let payload := CompanyProfile.logoData closed_profile u logoUrl in
  let changed := CompanyProfile.handleLogoChange env (Some u) closed_profile file st w in
  storage_upload env (trace w) "logos" path file = Js.Returned stored ->
  Supabase.error stored = None ->
  (forall e, companies_update env sent payload (Supabase.id u) = Js.Thrown e ->
     CompanyProfile.profile (state changed) = CompanyProfile.profile st /\
     toasts (trace (world changed))
     = toasts (trace w)
       ++ [CompanyProfile.destructive "Error"
             (Js.or_else (Js.message e) "No se pudo subir el logo")]) /\
  (forall reply e,
     companies_update env sent payload (Supabase.id u) = Js.Returned reply ->
     Supabase.error reply = Some e ->
     CompanyProfile.profile (state changed) = CompanyProfile.profile st /\
     toasts (trace (world changed))
     = toasts (trace w)
       ++ [CompanyProfile.destructive "Error"
             (Js.or_else (Js.message e) "No se pudo subir el logo")]).
Proof.
  cbv zeta. intros Hstored Hstored_ok. split.
  - intros e Hanswer. rewrite handleLogoChange_run. cbv zeta.
    rewrite Hstored, Hstored_ok, Hanswer.
    unfold state, world, after. cbn. rewrite toasts_app. split; reflexivity.
  - intros reply e Hanswer Herror. rewrite handleLogoChange_run. cbv zeta.
    rewrite Hstored, Hstored_ok, Hanswer, Herror.
    unfold state, world, after. cbn. rewrite toasts_app. split; reflexivity.
Qed.

Lemma failed_logo_update_keeps_profile_witness :
  CompanyProfile.profile
    (state (CompanyProfile.handleLogoChange Sample.read_only (Some Sample.ana)
              (Some Sample.acme) Sample.logo
              (Sample.page (Sample.form "Acme" "hi@acme.io")) Sample.quiet))
  = Some Sample.acme.
Proof.
  apply (proj2 (@failed_logo_update_keeps_profile Sample.read_only Sample.ana
                  (Some Sample.acme) Sample.logo
                  (Sample.page (Sample.form "Acme" "hi@acme.io")) Sample.quiet
                  {| Supabase.data := tt; Supabase.error := None |}
                  eq_refl eq_refl)
           {| Supabase.data := tt;
              Supabase.error := Some {| Js.message := "update failed";
                                        Js.detail := "500" |} |}
           {| Js.message := "update failed"; Js.detail := "500" |}
           eq_refl eq_refl).
Defined.

(** ** Validation and what the page shows of it *)

Lemma onSubmit_keeps_errors env user closed_profile data st w :
  outcome (CompanyProfile.onSubmit env user closed_profile data st w) = Js.Returned tt /\
  CompanyProfile.errors (state (CompanyProfile.onSubmit env user closed_profile data st w))
  = CompanyProfile.errors st.
Proof.
  destruct user as [u|]; [|split; reflexivity].
  rewrite onSubmit_run. cbv zeta.
  destruct (companies_update _ _ _ _) as [[d [e|]]|e]; cbn [Supabase.error];
    try (split; reflexivity).
  match goal with
  | |- context [CompanyProfile.loadProfile env (Some u) ?s ?v] =>
      destruct (loadProfile_frame env u s v) as [_ [_ [_ Herrors]]]
  end.
  split; [reflexivity|]. exact Herrors.
Qed.

(** X9: a form that the schema rejects goes nowhere: [handleSubmit] sends
    no request and shows no toast, whoever is signed in; it returns
    normally, having stored the issues (there is at least one) and left
    the rest of the state as it was. *)
Theorem rejected_form_sends_nothing env user closed_profile isEmail st w issues :
  CompanyProfile.safeParse isEmail (CompanyProfile.values st) = inl issues ->
  let submitted := CompanyProfile.handleSubmit env user closed_profile isEmail st w in
  outcome submitted = Js.Returned tt /\
  world submitted = w /\
  issues <> [] /\
  CompanyProfile.errors (state submitted) = issues /\
  CompanyProfile.values (state submitted) = CompanyProfile.values st /\
  CompanyProfile.profile (state submitted) = CompanyProfile.profile st /\
  CompanyProfile.loading (state submitted) = CompanyProfile.loading st /\
  CompanyProfile.uploading (state submitted) = CompanyProfile.uploading st.
Proof.
  intros Hrejected. cbv zeta.
  assert (issues <> []) as Hsome.
  { unfold CompanyProfile.safeParse in Hrejected.
    destruct (CompanyProfile.companyProfileSchema isEmail (CompanyProfile.values st));
      [discriminate|].
    injection Hrejected as <-. discriminate. }
  unfold CompanyProfile.handleSubmit, CompanyProfile.setErrors. run.
  rewrite Hrejected. repeat split. exact Hsome.
Qed.

Lemma rejected_form_sends_nothing_witness :
  world (CompanyProfile.handleSubmit Sample.up (Some Sample.ana) (Some Sample.acme)
           Sample.isEmail (Sample.page (Sample.form "A" "hi@acme.io")) Sample.quiet)
  = Sample.quiet.
Proof.
  apply (@rejected_form_sends_nothing Sample.up (Some Sample.ana) (Some Sample.acme)
           Sample.isEmail (Sample.page (Sample.form "A" "hi@acme.io")) Sample.quiet
           [{| Zod.path := "name";
               Zod.message := "El nombre debe tener al menos 2 caracteres" |}]
           eq_refl).
Defined.

(** X10: after a submission, accepted or not and whoever is signed in, the
    page shows under the name the message of the length rule exactly when
    the name has fewer than two characters, and under the email the
    message [Email inválido] exactly when the email fails the format
    test; the two fields are judged independently of each other. *)
Theorem submission_shows_field_errors env user closed_profile isEmail st w :
  let shown :=
    CompanyProfile.errors
      (state (CompanyProfile.handleSubmit env user closed_profile isEmail st w)) in
  CompanyProfile.errorMessage "name" shown
  = (if Nat.ltb (String.length (CompanyProfile.name (CompanyProfile.values st))) 2
     then Some "El nombre debe tener al menos 2 caracteres" else None) /\
  CompanyProfile.errorMessage "contact_email" shown
  = (if isEmail (CompanyProfile.contact_email (CompanyProfile.values st))
     then None else Some "Email inválido") /\
  CompanyProfile.errorMessage "description" shown = None /\
  CompanyProfile.errorMessage "sector" shown = None.
Proof.
  cbv zeta.
  destruct (CompanyProfile.safeParse isEmail (CompanyProfile.values st))
    as [issues|data] eqn:Hparse.
  - assert (issues
            = CompanyProfile.companyProfileSchema isEmail (CompanyProfile.values st))
      as Hissues.
    { unfold CompanyProfile.safeParse in Hparse.
      destruct (CompanyProfile.companyProfileSchema isEmail (CompanyProfile.values st));
        [discriminate|congruence]. }
    unfold CompanyProfile.handleSubmit, CompanyProfile.setErrors. run.
    rewrite Hparse. cbn [fst snd CompanyProfile.errors].
    rewrite Hissues, companyProfileSchema_issues.
    destruct (Nat.ltb _ 2), (isEmail _); repeat split.
  - assert (CompanyProfile.accepts isEmail (CompanyProfile.values st) = true) as Hacc
      by (unfold CompanyProfile.accepts; rewrite Hparse; reflexivity).
    apply accepts_iff in Hacc. destruct Hacc as [Hname Hemail].
    rewrite (handleSubmit_valid _ _ _ _ _ _ Hparse).
    rewrite (proj2 (onSubmit_keeps_errors _ _ _ _ _ _)).
    cbn [CompanyProfile.errors]. rewrite Hemail.
    destruct (Nat.ltb_spec (String.length (CompanyProfile.name (CompanyProfile.values st))) 2);
      [lia|]. repeat split.
Qed.

(** X11: the schema accepts a form exactly when its name has at least two
    characters and its email passes the format test.  The description and
    the sector never change the verdict, and at most two issues are
    reported. *)
Theorem schema_verdict isEmail v :
  (CompanyProfile.accepts isEmail v = true <->
   2 <= String.length (CompanyProfile.name v) /\
   isEmail (CompanyProfile.contact_email v) = true) /\
  (forall description sector,
      CompanyProfile.accepts isEmail
        {| CompanyProfile.name := CompanyProfile.name v;
           CompanyProfile.contact_email := CompanyProfile.contact_email v;
           CompanyProfile.description := description;
           CompanyProfile.sector := sector |}
      = CompanyProfile.accepts isEmail v) /\
  List.length (CompanyProfile.companyProfileSchema isEmail v) <= 2.
Proof.
  split; [apply accepts_iff|]. split.
  - intros description sector.
    unfold CompanyProfile.accepts, CompanyProfile.safeParse.
    rewrite !companyProfileSchema_issues.
    cbn [CompanyProfile.name CompanyProfile.contact_email].
    destruct (Nat.ltb _ 2), (isEmail _); reflexivity.
  - rewrite companyProfileSchema_issues.
    destruct (Nat.ltb _ 2), (isEmail _); cbn; lia.
Qed.

Lemma schema_verdict_witness :
  CompanyProfile.accepts Sample.isEmail (Sample.form "Acme" "hi@acme.io") = true.
Proof.
  apply (proj1 (@schema_verdict Sample.isEmail (Sample.form "Acme" "hi@acme.io"))).
  split; [cbn; lia|reflexivity].
Defined.

(** ** The extension of an uploaded file *)

Lemma split_concat (sep : ascii) (s : string) :
  String.concat (String sep "") (Js.split sep s) = s.
Proof.
  induction s as [|c rest IH]; [reflexivity|].
  cbn [Js.split]. destruct (Ascii.eqb_spec c sep) as [->|Hne].
  - pose proof (split_not_empty sep rest) as Hsome.
    destruct (Js.split sep rest) as [|piece pieces]; [contradiction|].
    rewrite <- IH. reflexivity.
  - pose proof (split_not_empty sep rest) as Hsome.
    destruct (Js.split sep rest) as [|piece pieces]; [contradiction|].
    rewrite <- IH. destruct pieces; reflexivity.
Qed.

Lemma split_pieces_without_separator (sep : ascii) (s : string) :
  Forall (fun piece => ~ In sep (list_ascii_of_string piece)) (Js.split sep s).
Proof.
  induction s as [|c rest IH]; cbn [Js.split].
  - constructor; [intros []|constructor].
  - destruct (Ascii.eqb_spec c sep) as [->|Hne].
    + constructor; [intros []|exact IH].
    + destruct (Js.split sep rest) as [|piece pieces].
      * constructor; [|constructor]. cbn. intros [Heq|[]]. congruence.
      * inversion IH as [|? ? Hpiece Hpieces]; subst.
        constructor; [|exact Hpieces].
        cbn. intros [Heq|Hin]; [congruence|contradiction].
Qed.

Lemma pop_last (l : list string) (x : string) :
  Js.pop l = Some x -> exists init, l = init ++ [x].
Proof.
  induction l as [|y rest IH]; [discriminate|].
  destruct rest as [|z rest'].
  - cbn. intros [= ->]. exists []. reflexivity.
  - intros Hpop. destruct (IH Hpop) as [init Hinit].
    exists (y :: init). rewrite Hinit. reflexivity.
Qed.

Lemma concat_last (sep : string) (init : list string) (x : string) :
  init <> [] ->
  String.concat sep (init ++ [x]) = (String.concat sep init ++ sep ++ x)%string.
Proof.
  induction init as [|y rest IH]; [contradiction|]. intros _.
  destruct rest as [|z rest'].
  - reflexivity.
  - change (String.concat sep ((y :: z :: rest') ++ [x]))
      with (y ++ sep ++ String.concat sep ((z :: rest') ++ [x]))%string.
    rewrite IH by discriminate.
    change (String.concat sep (y :: z :: rest'))
      with (y ++ sep ++ String.concat sep (z :: rest'))%string.
    rewrite !append_assoc. reflexivity.
Qed.

(** X12: the extension that [uploadFile] gives to the stored object is
    what follows the last dot of the name of the file: it holds no dot,
    and the name is either the extension alone (a name without a dot is
    taken whole as its own extension) or some stem, a dot, and the
    extension (which is empty when the name ends with a dot). *)
Theorem fileExt_follows_last_dot (file : Supabase.File) :
  exists ext,
    CompanyProfile.fileExt file = Some ext /\
    ~ In "."%char (list_ascii_of_string ext) /\
    (Supabase.file_name file = ext \/
     exists stem, Supabase.file_name file = (stem ++ "." ++ ext)%string).
Proof.
  destruct (fileExt_defined file) as [ext Hext]. exists ext.
  split; [exact Hext|].
  unfold CompanyProfile.fileExt in Hext.
  destruct (pop_last _ Hext) as [init Hinit].
  pose proof (split_pieces_without_separator "." (Supabase.file_name file)) as Hpieces.
  pose proof (split_concat "." (Supabase.file_name file)) as Hname.
  rewrite Hinit in Hpieces, Hname. split.
  - apply Forall_app in Hpieces. destruct Hpieces as [_ Hlast].
    inversion Hlast; assumption.
  - destruct init as [|first init'].
    + left. symmetry. exact Hname.
    + right. rewrite concat_last in Hname by discriminate.
      eexists. symmetry. exact Hname.
Qed.

(** * Further properties of the authentication context *)

(** What [fetchProfile] does, by the answer to its select. *)
Lemma fetchProfile_run env userId st w :
  AuthContext.fetchProfile env userId st w =
  let began := ConsoleLog "Fetching profile for user:" in
  let selected := Called (Supabase.ProfilesSelectByUser userId) in
  let failure e :=
    (Js.Returned tt, st,
     after w [began; selected; ConsoleError "Error fetching profile:" e]) in
  match profiles_select env (trace w ++ [began]) userId with
  | Js.Thrown e => failure e
  | Js.Returned reply =>
      match Supabase.error reply with
      | Some e => failure e
      | None =>
          (Js.Returned tt,
           {| AuthContext.user := AuthContext.user st;
              AuthContext.session := AuthContext.session st;
              AuthContext.profile := Supabase.data reply;
              AuthContext.loading := AuthContext.loading st |},
           after w [began; selected; ConsoleLog "Profile fetched from DB:"])
      end
  end.
Proof.
  unfold AuthContext.fetchProfile, AuthContext.setProfile. run.
  destruct (profiles_select _ _ _) as [[d [e|]]|e];
    cbn [Supabase.error Supabase.data trace timers];
    rewrite <- !app_assoc; reflexivity.
Qed.

(** X13: whatever the backend does, [fetchProfile] returns normally,
    sends exactly one request (the select of the row of that user), shows
    no toast, queues no timer, and leaves [user], [session] and [loading]
    as they were. *)
Theorem fetchProfile_always_settles env userId st w :
  let fetched := AuthContext.fetchProfile env userId st w in
  outcome fetched = Js.Returned tt /\
  calls (trace (world fetched))
  = calls (trace w) ++ [Supabase.ProfilesSelectByUser userId] /\
  toasts (trace (world fetched)) = toasts (trace w) /\
  timers (world fetched) = timers w /\
  AuthContext.user (state fetched) = AuthContext.user st /\
  AuthContext.session (state fetched) = AuthContext.session st /\
  AuthContext.loading (state fetched) = AuthContext.loading st.
Proof.
  cbv zeta. rewrite fetchProfile_run. cbv zeta.
  destruct (profiles_select _ _ _) as [[d [e|]]|e]; cbn [Supabase.error];
    unfold outcome, state, world, after; cbn;
    rewrite calls_app, toasts_app; cbn; rewrite app_nil_r; repeat split.
Qed.

(** X14: a select that succeeds replaces the profile by what it found,
    whatever the profile was and whoever is signed in; when no row
    exists, the profile becomes [null], a temporary profile included.  A
    request that is rejected leaves the whole state as it was and the
    rejection is written to the console. *)
Theorem fetchProfile_replaces_profile env userId st w :
  (forall reply,
      profiles_select env (trace w ++ [ConsoleLog "Fetching profile for user:"]) userId
      = Js.Returned reply ->
      Supabase.error reply = None ->
      AuthContext.profile (state (AuthContext.fetchProfile env userId st w))
      = Supabase.data reply) /\
  (forall e,
      profiles_select env (trace w ++ [ConsoleLog "Fetching profile for user:"]) userId
      = Js.Thrown e ->
      state (AuthContext.fetchProfile env userId st w) = st /\
      console_errors (trace (world (AuthContext.fetchProfile env userId st w)))
      = console_errors (trace w) ++ [e]).
Proof.
  split.
  - intros reply Hanswer Hok. rewrite fetchProfile_run. cbv zeta.
    rewrite Hanswer, Hok. reflexivity.
  - intros e Hanswer. rewrite fetchProfile_run. cbv zeta. rewrite Hanswer.
    unfold state, world, after. cbn. rewrite console_errors_app. split; reflexivity.
Qed.

Lemma fetchProfile_replaces_profile_witness :
  AuthContext.profile
    (state (AuthContext.fetchProfile Sample.no_rows "u1" Sample.signed_in Sample.quiet))
  = None /\
  state (AuthContext.fetchProfile Sample.offline "u1" Sample.signed_in Sample.quiet)
  = Sample.signed_in.
Proof.
  split.
  - apply (proj1 (@fetchProfile_replaces_profile Sample.no_rows "u1" Sample.signed_in
                    Sample.quiet)
             {| Supabase.data := None; Supabase.error := None |} eq_refl eq_refl).
  - apply (proj2 (@fetchProfile_replaces_profile Sample.offline "u1" Sample.signed_in
                    Sample.quiet)
             Sample.unreachable eq_refl).
Defined.

(** X15: whatever the event and the session, the listener of the auth
    state and the callback of the initial session mirror the session:
    [session] becomes the session given, [user] its user or [null], and
    [loading] is switched off.  Neither sends a request or shows a toast;
    each queues one fetch of the profile when the session has a user, and
    nothing otherwise. *)
Theorem session_handlers_mirror_session event s error st w :
  let listened := AuthContext.onAuthStateChange event s st w in
  let loaded :=
    AuthContext.onGetSession {| Supabase.data := s; Supabase.error := error |} st w in
  let queued :=
    match AuthContext.session_user s with
    | Some u => [FetchProfileTask (Supabase.id u)]
    | None => []
    end in
  (outcome listened = Js.Returned tt /\
   AuthContext.session (state listened) = s /\
   AuthContext.user (state listened) = AuthContext.session_user s /\
   AuthContext.loading (state listened) = false /\
   calls (trace (world listened)) = calls (trace w) /\
   toasts (trace (world listened)) = toasts (trace w) /\
   timers (world listened) = timers w ++ queued) /\
  (outcome loaded = Js.Returned tt /\
   AuthContext.session (state loaded) = s /\
   AuthContext.user (state loaded) = AuthContext.session_user s /\
   AuthContext.loading (state loaded) = false /\
   trace (world loaded) = trace w /\
   timers (world loaded) = timers w ++ queued).
Proof.
  cbv zeta.
  unfold AuthContext.onAuthStateChange, AuthContext.onGetSession,
    AuthContext.setSession, AuthContext.setUser, AuthContext.setProfile,
    AuthContext.setLoading.
  cbn [Supabase.data]. run.
  destruct (AuthContext.session_user s) as [u|];
    [destruct (AuthContext.metadata_role u) as [r|]; [destruct (Js.truthy r)|]|];
    cbn; rewrite ?calls_app, ?toasts_app; cbn; rewrite ?app_nil_r;
    repeat split.
Qed.

(** X16: a session whose user has no role in the metadata (no metadata,
    no [role] key, or an empty role) leaves the profile as it was, in the
    listener and in the callback of the initial session alike; and the
    callback of the initial session leaves the profile as it was when
    there is no session user, where the listener would set it to
    [null]. *)
Theorem profile_kept_without_role event s error st w :
  (forall u,
      AuthContext.session_user s = Some u ->
      AuthContext.metadata_role u = None \/ AuthContext.metadata_role u = Some "" ->
      AuthContext.profile (state (AuthContext.onAuthStateChange event s st w))
      = AuthContext.profile st /\
      AuthContext.profile
        (state (AuthContext.onGetSession
                  {| Supabase.data := s; Supabase.error := error |} st w))
      = AuthContext.profile st) /\
  (AuthContext.session_user s = None ->
   AuthContext.profile
     (state (AuthContext.onGetSession
               {| Supabase.data := s; Supabase.error := error |} st w))
   = AuthContext.profile st).
Proof.
  unfold AuthContext.onAuthStateChange, AuthContext.onGetSession,
    AuthContext.setSession, AuthContext.setUser, AuthContext.setProfile,
    AuthContext.setLoading.
  cbn [Supabase.data]. split.
  - intros u Huser Hrole. rewrite Huser.
    destruct Hrole as [Hrole|Hrole]; rewrite Hrole; run; split; reflexivity.
  - intros Huser. rewrite Huser. run. reflexivity.
Qed.

Lemma profile_kept_without_role_witness :
  AuthContext.profile
    (state (AuthContext.onAuthStateChange "TOKEN_REFRESHED" (Some Sample.guest_session)
              Sample.signed_in Sample.quiet))
  = Some Sample.ana_profile /\
  AuthContext.profile
    (state (AuthContext.onGetSession {| Supabase.data := None; Supabase.error := None |}
              Sample.signed_in Sample.quiet))
  = Some Sample.ana_profile.
Proof.
  split.
  - apply (proj1 (@profile_kept_without_role "TOKEN_REFRESHED"
                    (Some Sample.guest_session) None Sample.signed_in Sample.quiet)
             Sample.guest eq_refl).
    left. reflexivity.
  - apply (proj2 (@profile_kept_without_role "INITIAL_SESSION" None None
                    Sample.signed_in Sample.quiet)).
    reflexivity.
Defined.

(** X17: the temporary profile and the fetch that follows it.  After the
    listener has run on a session with a user, with no timer pending
    before, the timer that fires sends the select of the row of that
    user and empties the queue.  If the select succeeds, the profile is
    what it found; if it fails, by an error or by a rejected request, and
    the metadata held a role, the temporary profile stays. *)
Theorem temporary_profile_then_fetch env event s u st w :
  timers w = [] ->
  AuthContext.session_user s = Some u ->
  let listened := AuthContext.onAuthStateChange event s st w in
  let fired := AuthContext.run_timer env (state listened) (world listened) in
  let asked := trace (world listened) ++ [ConsoleLog "Fetching profile for user:"] in
  outcome fired = Js.Returned tt /\
  timers (world fired) = [] /\
  calls (trace (world fired))
  = calls (trace w) ++ [Supabase.ProfilesSelectByUser (Supabase.id u)] /\
  (forall reply,
      profiles_select env asked (Supabase.id u) = Js.Returned reply ->
      Supabase.error reply = None ->
      AuthContext.profile (state fired) = Supabase.data reply) /\
  (forall userRole e,
      AuthContext.metadata_role u = Some userRole ->
      Js.truthy userRole = true ->
      profiles_select env asked (Supabase.id u) = Js.Thrown e \/
      (exists reply, profiles_select env asked (Supabase.id u) = Js.Returned reply /\
                     Supabase.error reply = Some e) ->
      AuthContext.profile (state fired)
      = Some {| Profiles.id := ""; Profiles.user_id := Supabase.id u;
                Profiles.role := userRole;
                Profiles.created_at := ""; Profiles.updated_at := "" |}).
Proof.
  intros Hidle Huser. cbv zeta.
  unfold AuthContext.onAuthStateChange, AuthContext.setSession, AuthContext.setUser,
    AuthContext.setProfile, AuthContext.setLoading, AuthContext.tempProfile.
  rewrite Huser. run. rewrite Hidle.
  destruct (AuthContext.metadata_role u) as [r|] eqn:Hrole;
    [destruct (Js.truthy r) eqn:Htruthy|];
    cbn [app fst snd trace timers];
    unfold AuthContext.run_timer, AuthContext.run_task; cbn [timers trace];
    cbv [not_awaited]; rewrite fetchProfile_run; cbv zeta; cbn [trace timers].
  all: destruct (profiles_select _ _ _) as [[d [e|]]|e] eqn:Hanswer;
    cbn [Supabase.error Supabase.data fst snd trace timers after];
    rewrite !calls_app; cbn; rewrite ?app_nil_r;
    (split; [reflexivity|]); (split; [reflexivity|]); (split; [reflexivity|]);
    (split;
     [ intros reply Heq Hok; inversion Heq; subst; cbn in *; congruence
     | intros userRole e0 Hr Ht Hfail; try congruence;
       destruct Hfail as [Heq|[reply [Heq Herr]]];
       inversion Heq; subst; cbn in *; congruence ]).
Qed.

Lemma temporary_profile_then_fetch_witness :
  AuthContext.profile
    (state (AuthContext.run_timer Sample.up
              (state (AuthContext.onAuthStateChange "SIGNED_IN" (Some Sample.ana_session)
                        AuthContext.initial Sample.quiet))
              (world (AuthContext.onAuthStateChange "SIGNED_IN" (Some Sample.ana_session)
                        AuthContext.initial Sample.quiet))))
  = Some Sample.ana_profile /\
  AuthContext.profile
    (state (AuthContext.run_timer Sample.offline
              (state (AuthContext.onAuthStateChange "SIGNED_IN" (Some Sample.ana_session)
                        AuthContext.initial Sample.quiet))
              (world (AuthContext.onAuthStateChange "SIGNED_IN" (Some Sample.ana_session)
                        AuthContext.initial Sample.quiet))))
  = Some {| Profiles.id := ""; Profiles.user_id := "u1"; Profiles.role := "company";
            Profiles.created_at := ""; Profiles.updated_at := "" |}.
Proof.
  split.
  - pose proof (@temporary_profile_then_fetch Sample.up "SIGNED_IN"
                  (Some Sample.ana_session) Sample.ana AuthContext.initial Sample.quiet
                  eq_refl eq_refl) as Hfetch.
    cbv zeta in Hfetch. destruct Hfetch as [_ [_ [_ [Hfound _]]]].
    apply (Hfound {| Supabase.data := Some Sample.ana_profile; Supabase.error := None |});
      reflexivity.
  - pose proof (@temporary_profile_then_fetch Sample.offline "SIGNED_IN"
                  (Some Sample.ana_session) Sample.ana AuthContext.initial Sample.quiet
                  eq_refl eq_refl) as Hfetch.
    cbv zeta in Hfetch. destruct Hfetch as [_ [_ [_ [_ Hkept]]]].
    apply (Hkept "company" Sample.unreachable); try reflexivity.
    left. reflexivity.
Defined.

(** X18: the read of the initial session.  When the request is rejected,
    nothing of the state changes: [loading] stays as it was.  When it is
    answered, with an error or without, [loading] is switched off and
    [session] and [user] mirror the session of the answer.  One request
    is sent either way, and the caller never sees an exception. *)
Theorem getInitialSession_settles env st w :
  let initialised := AuthContext.getInitialSession env st w in
  outcome initialised = Js.Returned tt /\
  calls (trace (world initialised)) = calls (trace w) ++ [Supabase.AuthGetSession] /\
  (forall e, auth_getSession env (trace w) = Js.Thrown e -> state initialised = st) /\
  (forall reply,
      auth_getSession env (trace w) = Js.Returned reply ->
      AuthContext.loading (state initialised) = false /\
      AuthContext.session (state initialised) = Supabase.data reply /\
      AuthContext.user (state initialised)
      = AuthContext.session_user (Supabase.data reply)).
Proof.
  cbv zeta.
  unfold AuthContext.getInitialSession, AuthContext.onGetSession,
    AuthContext.setSession, AuthContext.setUser, AuthContext.setProfile,
    AuthContext.setLoading.
  run.
  destruct (auth_getSession env (trace w)) as [[d err]|e]; cbn [Supabase.data].
  - destruct (AuthContext.session_user d) as [u|] eqn:Huser;
      [destruct (AuthContext.metadata_role u) as [r|]; [destruct (Js.truthy r)|]|];
      cbn; rewrite calls_app; cbn;
      (split; [reflexivity|]); (split; [reflexivity|]);
      (split; [discriminate|]);
      intros reply [= <-]; cbn; repeat split; symmetry; exact Huser.
  - cbn. rewrite calls_app. cbn.
    split; [reflexivity|]. split; [reflexivity|].
    split; [reflexivity|discriminate].
Qed.

Lemma getInitialSession_settles_witness :
  state (AuthContext.getInitialSession Sample.offline AuthContext.initial Sample.quiet)
  = AuthContext.initial /\
  AuthContext.loading
    (state (AuthContext.getInitialSession Sample.no_rows AuthContext.initial Sample.quiet))
  = false.
Proof.
  split.
  - apply (proj1 (proj2 (proj2 (@getInitialSession_settles Sample.offline
                                  AuthContext.initial Sample.quiet)))
             Sample.unreachable eq_refl).
  - apply (proj2 (proj2 (proj2 (@getInitialSession_settles Sample.no_rows
                                  AuthContext.initial Sample.quiet)))
             {| Supabase.data := None; Supabase.error := None |} eq_refl).
Defined.

(** ** Signing in, signing up, signing out *)

(** X19: [signIn] hands the answer of the backend through: it resolves to
    the error of the answer, [null] included, and shows a toast exactly
    when there is an error (a successful sign-in shows none).  It sends
    one request, never touches the state of the context, and lets a
    rejected request propagate to its caller without a toast. *)
Theorem signIn_passes_error_through env email password st w :
  let signed := AuthContext.signIn env email password st w in
  state signed = st /\
  calls (trace (world signed))
  = calls (trace w) ++ [Supabase.AuthSignInWithPassword email password] /\
  (forall reply,
      auth_signInWithPassword env (trace w) email password = Js.Returned reply ->
      outcome signed = Js.Returned {| AuthContext.error := Supabase.error reply |} /\
      toasts (trace (world signed))
      = toasts (trace w)
        ++ match Supabase.error reply with
           | Some e => [AuthContext.destructive "Error en el login" (Js.message e)]
           | None => []
           end) /\
  (forall e,
      auth_signInWithPassword env (trace w) email password = Js.Thrown e ->
      outcome signed = Js.Thrown e /\
      toasts (trace (world signed)) = toasts (trace w)).
Proof.
  cbv zeta. unfold AuthContext.signIn. run.
  destruct (auth_signInWithPassword env (trace w) email password) as [[d [e|]]|e];
    cbn; rewrite ?calls_app, ?toasts_app; cbn; rewrite ?app_nil_r;
    (split; [reflexivity|]); (split; [reflexivity|]);
    (split; [intros reply Heq; inversion Heq; subst; cbn; rewrite ?app_nil_r;
             split; reflexivity
            |intros e' Heq; inversion Heq; subst; split; reflexivity]).
Qed.

Lemma signIn_passes_error_through_witness :
  outcome (AuthContext.signIn Sample.up "ana@acme.io" "secret" AuthContext.initial
             Sample.quiet)
  = Js.Returned {| AuthContext.error := None |} /\
  outcome (AuthContext.signIn Sample.offline "ana@acme.io" "secret" AuthContext.initial
             Sample.quiet)
  = Js.Thrown Sample.unreachable.
Proof.
  split.
  - apply (proj1 (proj2 (proj2 (@signIn_passes_error_through Sample.up "ana@acme.io"
                                  "secret" AuthContext.initial Sample.quiet)))
             {| Supabase.data := tt; Supabase.error := None |} eq_refl).
  - apply (proj2 (proj2 (proj2 (@signIn_passes_error_through Sample.offline
                                  "ana@acme.io" "secret" AuthContext.initial
                                  Sample.quiet)))
             Sample.unreachable eq_refl).
Defined.

Lemma prefix_iff (p s : string) :
  String.prefix p s = true <-> exists post, s = (p ++ post)%string.
Proof.
  split.
  - revert s. induction p as [|c p IH]; intros s Hprefix.
    + exists s. reflexivity.
    + destruct s as [|c' s]; [discriminate|]. cbn in Hprefix.
      destruct (Ascii.ascii_dec c c') as [->|]; [|discriminate].
      destruct (IH _ Hprefix) as [post ->]. exists post. reflexivity.
  - intros [post ->]. apply prefix_append.
Qed.

Lemma includes_iff (needle s : string) :
  Js.includes needle s = true <->
  exists pre post, s = (pre ++ needle ++ post)%string.
Proof.
  split.
  - induction s as [|c s IH]; cbn [Js.includes];
      destruct (String.prefix needle _) eqn:Hprefix; try discriminate.
    + intros _. apply prefix_iff in Hprefix. destruct Hprefix as [post Hpost].
      exists "", post. exact Hpost.
    + intros _. apply prefix_iff in Hprefix. destruct Hprefix as [post Hpost].
      exists "", post. exact Hpost.
    + intros Hrest. destruct (IH Hrest) as [pre [post ->]].
      exists (String c pre), post. reflexivity.
  - intros [pre [post ->]]. induction pre as [|c pre IH].
    + cbn [append].
      assert (String.prefix needle (needle ++ post) = true) as Hprefix
        by apply prefix_append.
      destruct (needle ++ post)%string; cbn [Js.includes]; rewrite Hprefix; reflexivity.
    + cbn [append Js.includes]. rewrite IH.
      destruct (String.prefix needle _); reflexivity.
Qed.

(** X20: [resendConfirmation] hands the error of the backend through and
    shows exactly one toast.  An error whose message contains
    [For security purposes] or [rate limit] is shown as a plain notice to
    wait; any other error is shown as destructive, with its message; no
    error gives the notice that the email was sent again.  The request
    goes to the address given, with the confirmation page of this site as
    the redirect, and the state of the context is not touched. *)
Theorem resendConfirmation_toasts env email st w reply :
  auth_resend env (trace w) email (window_location_origin env ++ "/confirm")
  = Js.Returned reply ->
  let resent := AuthContext.resendConfirmation env email st w in
  outcome resent = Js.Returned {| AuthContext.error := Supabase.error reply |} /\
  state resent = st /\
  calls (trace (world resent))
  = calls (trace w)
    ++ [Supabase.AuthResend email (window_location_origin env ++ "/confirm")] /\
  (Supabase.error reply = None ->
   toasts (trace (world resent))
   = toasts (trace w)
     ++ [AuthContext.plain "Email reenviado"
           "Se ha enviado un nuevo email de confirmación. Revisa tu bandeja de entrada."]) /\
  (forall e,
      Supabase.error reply = Some e ->
      (exists pre post, Js.message e = (pre ++ "For security purposes" ++ post)%string) \/
      (exists pre post, Js.message e = (pre ++ "rate limit" ++ post)%string) ->
      exists description,
        toasts (trace (world resent))
        = toasts (trace w)
          ++ [{| Ui.title := "Espera un momento"; Ui.description := description;
                 Ui.variant := Some Ui.Default; Ui.action := None |}]) /\
  (forall e,
      Supabase.error reply = Some e ->
      ~ (exists pre post, Js.message e = (pre ++ "For security purposes" ++ post)%string) ->
      ~ (exists pre post, Js.message e = (pre ++ "rate limit" ++ post)%string) ->
      toasts (trace (world resent))
      = toasts (trace w)
        ++ [AuthContext.destructive "Error al reenviar" (Js.message e)]).
Proof.
  intros Hanswer. cbv zeta. unfold AuthContext.resendConfirmation. run.
  rewrite Hanswer. destruct reply as [d [e|]]; cbn [Supabase.error].
  - destruct (Js.includes "For security purposes" (Js.message e)) eqn:Hsecurity;
      [|destruct (Js.includes "rate limit" (Js.message e)) eqn:Hrate];
      cbn; rewrite !calls_app, !toasts_app; cbn; rewrite ?app_nil_r;
      (split; [reflexivity|]); (split; [reflexivity|]); (split; [reflexivity|]);
      (split; [discriminate|]); split.
    + intros e' [= <-] _. eexists. reflexivity.
    + intros e' [= <-] Hnot _. exfalso. apply Hnot.
      exact (proj1 (includes_iff "For security purposes" (Js.message e)) Hsecurity).
    + intros e' [= <-] _. eexists. reflexivity.
    + intros e' [= <-] _ Hnot. exfalso. apply Hnot.
      exact (proj1 (includes_iff "rate limit" (Js.message e)) Hrate).
    + intros e' [= <-] [Hin|Hin].
      * pose proof (proj2 (includes_iff "For security purposes" (Js.message e)) Hin).
        congruence.
      * pose proof (proj2 (includes_iff "rate limit" (Js.message e)) Hin).
        congruence.
    + intros e' [= <-] _ _. reflexivity.
  - cbn. rewrite !calls_app, !toasts_app. cbn. rewrite ?app_nil_r.
    repeat split; discriminate.
Qed.

Lemma resendConfirmation_toasts_witness :
  exists description,
    toasts (trace (world (AuthContext.resendConfirmation Sample.down "ana@acme.io"
                            AuthContext.initial Sample.quiet)))
    = [{| Ui.title := "Espera un momento"; Ui.description := description;
          Ui.variant := Some Ui.Default; Ui.action := None |}].
Proof.
  pose proof (@resendConfirmation_toasts Sample.down "ana@acme.io" AuthContext.initial
                Sample.quiet
                {| Supabase.data := tt;
                   Supabase.error := Some {| Js.message := "rate limit exceeded";
                                             Js.detail := "500" |} |}
                eq_refl) as Hresent.
  cbv zeta in Hresent. destruct Hresent as [_ [_ [_ [_ [Hwait _]]]]].
  apply (Hwait {| Js.message := "rate limit exceeded"; Js.detail := "500" |} eq_refl).
  right. exists "", " exceeded". reflexivity.
Defined.

(** X21: [signUp] sends one request, which carries the email, the
    password, the name, the role, and the confirmation page of this site
    as the redirect.  It never touches the state of the context (the new
    user reaches it through the listener only).  Once the request is
    answered it shows exactly one toast; a rejected request propagates to
    the caller and shows none. *)
Theorem signUp_sends_one_request env email password name role st w :
  let signed := AuthContext.signUp env email password name role st w in
  let asked := trace w ++ [ConsoleLog "SignUp - Redirect URL set to:"] in
  let redirect := (window_location_origin env ++ "/confirm")%string in
  state signed = st /\
  timers (world signed) = timers w /\
  calls (trace (world signed))
  = calls (trace w)
    ++ [Supabase.AuthSignUp email password redirect name (AuthContext.role_name role)] /\
  (forall reply,
      auth_signUp env asked email password redirect name (AuthContext.role_name role)
      = Js.Returned reply ->
      exists shown, toasts (trace (world signed)) = toasts (trace w) ++ [shown]) /\
  (forall e,
      auth_signUp env asked email password redirect name (AuthContext.role_name role)
      = Js.Thrown e ->
      outcome signed = Js.Thrown e /\
      toasts (trace (world signed)) = toasts (trace w)).
Proof.
  cbv zeta. unfold AuthContext.signUp. run.
  destruct (auth_signUp _ _ _ _ _ _ _) as [[[u s] [e|]]|e];
    [| destruct u, s |];
    cbn; rewrite !calls_app, !toasts_app; cbn; rewrite ?app_nil_r;
    (split; [reflexivity|]); (split; [reflexivity|]); (split; [reflexivity|]);
    (split; [intros reply Heq; try discriminate; eexists; reflexivity
            |intros e' Heq; inversion Heq; subst; split; reflexivity]).
Qed.

Lemma signUp_sends_one_request_witness :
  exists shown,
    toasts (trace (world (AuthContext.signUp Sample.up "ana@acme.io" "secret" "Ana"
                            AuthContext.company AuthContext.initial Sample.quiet)))
    = [shown].
Proof.
  apply (proj1 (proj2 (proj2 (proj2 (@signUp_sends_one_request Sample.up "ana@acme.io"
                                       "secret" "Ana" AuthContext.company
                                       AuthContext.initial Sample.quiet))))
           {| Supabase.data := {| Supabase.signed_up_user := Some Sample.ana;
                                  Supabase.signed_up_session := Some Sample.ana_session |};
              Supabase.error := None |}
           eq_refl).
Defined.

(** X22: the button of the toast for an address already in use.  When the
    backend answers the sign-up without an error, with a user and no
    session, the toast carries a button, and a click on it sends the
    confirmation again to the address given to [signUp], with the same
    redirect, and never fails the caller.  The toasts of the other
    answers carry no button. *)
Theorem signUp_resend_button env email password name role st w reply :
  auth_signUp env (trace w ++ [ConsoleLog "SignUp - Redirect URL set to:"])
    email password (window_location_origin env ++ "/confirm") name
    (AuthContext.role_name role) = Js.Returned reply ->
  exists shown,
    toasts (trace (world (AuthContext.signUp env email password name role st w)))
    = toasts (trace w) ++ [shown] /\
    (Supabase.error reply = None ->
     Supabase.signed_up_user (Supabase.data reply) <> None ->
     Supabase.signed_up_session (Supabase.data reply) = None ->
     exists button,
       Ui.action shown = Some button /\
       forall st' w',
         outcome (AuthContext.onClick env button st' w') = Js.Returned tt /\
         calls (trace (world (AuthContext.onClick env button st' w')))
         = calls (trace w')
           ++ [Supabase.AuthResend email (window_location_origin env ++ "/confirm")]) /\
    (Supabase.error reply <> None \/
     Supabase.signed_up_user (Supabase.data reply) = None \/
     Supabase.signed_up_session (Supabase.data reply) <> None ->
     Ui.action shown = None).
Proof.
  intros Hanswer. unfold AuthContext.signUp. run. rewrite Hanswer. clear Hanswer.
  destruct reply as [[u s] [e|]]; [| destruct u as [u|], s as [s|] ];
    cbn; rewrite !toasts_app; cbn; rewrite ?app_nil_r;
    eexists; (split; [reflexivity|]); cbn; split;
    try (intros He Hu Hs; congruence);
    try (intros _; reflexivity).
  - intros _ _ _. eexists. split; [reflexivity|].
    intros st' w'. unfold AuthContext.onClick, AuthContext.resendConfirmation.
    cbn [Ui.resend_to]. run.
    destruct (auth_resend _ _ _ _) as [[d [e|]]|e]; cbn;
      [destruct (Js.includes "For security purposes" (Js.message e)
                 || Js.includes "rate limit" (Js.message e)) |..];
      cbn; rewrite !calls_app; cbn; rewrite ?app_nil_r; split; reflexivity.
  - intros [He|[Hu|Hs]]; congruence.
Qed.

Lemma signUp_resend_button_witness :
  exists shown button,
    toasts (trace (world (AuthContext.signUp Sample.taken "ana@acme.io" "secret" "Ana"
                            AuthContext.company AuthContext.initial Sample.quiet)))
    = [shown] /\
    Ui.action shown = Some button /\
    calls (trace (world (AuthContext.onClick Sample.taken button AuthContext.initial
                           Sample.quiet)))
    = [Supabase.AuthResend "ana@acme.io" "https://talentup.app/confirm"].
Proof.
  destruct (@signUp_resend_button Sample.taken "ana@acme.io" "secret" "Ana"
              AuthContext.company AuthContext.initial Sample.quiet
              {| Supabase.data := {| Supabase.signed_up_user := Some Sample.ana;
                                     Supabase.signed_up_session := None |};
                 Supabase.error := None |}
              eq_refl)
    as [shown [Htoasts [Hbutton _]]].
  destruct (Hbutton eq_refl ltac:(discriminate) eq_refl) as [button [Haction Hclick]].
  exists shown, button. split; [exact Htoasts|]. split; [exact Haction|].
  apply (Hclick AuthContext.initial Sample.quiet).
Defined.

(** X23: [signOut] clears the state only after the request is settled.
    When the request is rejected, the rejection propagates to the caller
    and [user], [session] and [profile] stay as they were. *)
Theorem signOut_rejected_keeps_state env st w e :
  auth_signOut env (trace w) = Js.Thrown e ->
  AuthContext.signOut env st w
  = (Js.Thrown e, st, after w [Called Supabase.AuthSignOut]).
Proof.
  intros Hanswer.
  unfold AuthContext.signOut, AuthContext.setUser, AuthContext.setSession,
    AuthContext.setProfile.
  run. rewrite Hanswer. reflexivity.
Qed.

Lemma signOut_rejected_keeps_state_witness :
  state (AuthContext.signOut Sample.offline Sample.signed_in Sample.quiet)
  = Sample.signed_in.
Proof.
  rewrite (@signOut_rejected_keeps_state Sample.offline Sample.signed_in Sample.quiet
             Sample.unreachable eq_refl).
  reflexivity.
Defined.

(** ** What the page shows of the logo *)

(** X24: after a logo change in which the upload and the update both
    succeed, a page that held a profile shows the new address as its
    logo, and the upload control reads [Cambiar Logo] when that address
    is not empty.  A page that held no profile still holds none: it shows
    no logo and the control still reads [Añadir Logo], although the file
    is stored and the update was sent. *)
Theorem logo_change_shown env u closed_profile file st w stored written :
  let path := CompanyProfile.filePath u (Date_now env (trace w)) file in
  let logoUrl := storage_getPublicUrl env "logos" path in
  let changed := CompanyProfile.handleLogoChange env (Some u) closed_profile file st w in
  storage_upload env (trace w) "logos" path file = Js.Returned stored ->
  Supabase.error stored = None ->
  companies_update env
    (trace w ++ [Called (Supabase.StorageUpload "logos" path file);
                 Called (Supabase.StorageGetPublicUrl "logos" path)])
    (CompanyProfile.logoData closed_profile u logoUrl) (Supabase.id u)
  = Js.Returned written ->
  Supabase.error written = None ->
  (CompanyProfile.profile st <> None ->
   CompanyProfile.logoSrc (state changed) = logoUrl /\
   (logoUrl <> "" -> CompanyProfile.uploadLabel (state changed) = "Cambiar Logo")) /\
  (CompanyProfile.profile st = None ->
   CompanyProfile.profile (state changed) = None /\
   CompanyProfile.logoSrc (state changed) = "" /\
   CompanyProfile.uploadLabel (state changed) = "Añadir Logo" /\
   calls (trace (world changed))
   = calls (trace w)
     ++ [Supabase.StorageUpload "logos" path file;
         Supabase.StorageGetPublicUrl "logos" path;
         Supabase.CompaniesUpdateByUser
           (CompanyProfile.logoData closed_profile u logoUrl) (Supabase.id u)]).
Proof.
  cbv zeta. intros Hstored Hstored_ok Hwritten Hwritten_ok.
  rewrite handleLogoChange_run. cbv zeta.
  rewrite Hstored, Hstored_ok, Hwritten, Hwritten_ok.
  unfold state, world, after, CompanyProfile.logoSrc, CompanyProfile.uploadLabel,
    CompanyProfile.has_logo.
  cbn [fst snd CompanyProfile.profile CompanyProfile.uploading trace].
  destruct (CompanyProfile.profile st) as [prev|]; cbn.
  - split; [|discriminate]. intros _.
    destruct (storage_getPublicUrl env "logos" _) as [|c url]; cbn.
    + split; [reflexivity|]. intros Hne. contradiction.
    + split; reflexivity.
  - split; [intros Hne; contradiction|]. intros _.
    rewrite calls_app. cbn. repeat split.
Qed.

Lemma logo_change_shown_witness :
  CompanyProfile.logoSrc
    (state (CompanyProfile.handleLogoChange Sample.up (Some Sample.ana)
              (Some Sample.acme) Sample.logo
              (Sample.page (Sample.form "Acme" "hi@acme.io")) Sample.quiet))
  = "https://cdn/logos/u1/u1/1700000000000.png" /\
  CompanyProfile.uploadLabel
    (state (CompanyProfile.handleLogoChange Sample.up (Some Sample.ana) None Sample.logo
              CompanyProfile.initial Sample.quiet))
  = "Añadir Logo".
Proof.
  split.
  - apply (proj1 (@logo_change_shown Sample.up Sample.ana (Some Sample.acme) Sample.logo
                    (Sample.page (Sample.form "Acme" "hi@acme.io")) Sample.quiet
                    {| Supabase.data := tt; Supabase.error := None |}
                    {| Supabase.data := tt; Supabase.error := None |}
                    eq_refl eq_refl eq_refl eq_refl)).
    discriminate.
  - apply (proj2 (@logo_change_shown Sample.up Sample.ana None Sample.logo
                    CompanyProfile.initial Sample.quiet
                    {| Supabase.data := tt; Supabase.error := None |}
                    {| Supabase.data := tt; Supabase.error := None |}
                    eq_refl eq_refl eq_refl eq_refl)).
    reflexivity.
Defined.
